(** * check_rtl_meaning.py: a shallow embedding and its properties

    The script looks a prefix or a suffix up in [rtl_dictionary.json] and
    prints its explanation, or lists the whole dictionary.

    What the script does itself is modelled as it is written: the message
    constants, [readInDictionary] with its bare [except], and the body of
    [__main__] with its truthiness tests, look-ups and the listing loop.
    A run is a value of the monad [M]: how it ends (a value, [exit()], an
    exception) and the events it produced (the calls of [open] and of
    [print]), in order.

    What the Python runtime and its libraries do is taken as the variables
    of a section: [argparse]'s [parse_args], the file system behind
    [open], [json.load], and [str] on values that are not strings. The
    help strings of the switches are used by [argparse] alone and are left
    out. The module [Sample] gives these variables concrete values, on
    which the properties are run. *)

From Stdlib Require Import String Ascii List ZArith Bool Arith Lia.
Import ListNotations.
Local Open Scope list_scope.
Local Open Scope string_scope.

(** ** Python values, as [json.load] builds them *)

(** A JSON object becomes a [dict], kept here as the list of its items in
    insertion order; a Python [dict] never holds a key twice, which
    [unique_keys] states where a property depends on it. A float carries
    its literal, the script never computes with one. *)
#[local] Set Warnings "-register-all".

Inductive pyobj : Type :=
| PyNone
| PyBool (b : bool)
| PyInt (n : Z)
| PyFloat (literal : string)
| PyStr (s : string)
| PyList (elems : list pyobj)
| PyDict (entries : list (string * pyobj)).

Definition unique_keys (entries : list (string * pyobj)) : Prop :=
  NoDup (map fst entries).

(** The exceptions the script can meet. Those that carry a path are the
    [OSError]s of [open]. *)
Inductive exn : Type :=
| FileNotFoundError (path : string)
| IsADirectoryError (path : string)
| NotADirectoryError (path : string)
| PermissionError (path : string)
| OSError (errno : Z) (path : string)
| JSONDecodeError
| KeyError (key : string)
| TypeError
| AttributeError
| IndexError.

(** Why [open] fails at a path: there is no such file, the path names a
    directory, a component of the path is no directory, the file may not
    be read, or another error of the operating system. *)
Inductive open_failure : Type :=
| NoSuchFile
| IsADirectory
| NotADirectory
| PermissionDenied
| OtherOSError (errno : Z).

(** What [open(path)] does: it returns the file, kept here as its
    content, or it raises. *)
Inductive open_result : Type :=
| File (content : string)
| NoFile (why : open_failure).

(** The exception [open] raises for each failure. *)
Definition open_error (why : open_failure) (path : string) : exn :=
  match why with
  | NoSuchFile => FileNotFoundError path
  | IsADirectory => IsADirectoryError path
  | NotADirectory => NotADirectoryError path
  | PermissionDenied => PermissionError path
  | OtherOSError errno => OSError errno path
  end.

(** What a run does that can be observed: the calls of [open], and the
    calls of [print] with the string printed (the newline that [print]
    adds is not part of it). *)
Inductive event : Type :=
| OpenFile (path : string)
| Printed (text : string).

(** How a computation ends: with a value, by [exit()] (a [SystemExit]
    carrying the exit status), or by an exception. *)
Inductive outcome (A : Type) : Type :=
| Ok (a : A)
| Exited (status : Z)
| Raised (e : exn).
Arguments Ok {A} a.
Arguments Exited {A} status.
Arguments Raised {A} e.

(** ** The monad of the script: a result and the events so far *)

Definition M (A : Type) : Type := outcome A * list event.

Definition ret {A} (a : A) : M A := (Ok a, []).

Definition bind {A B} (m : M A) (f : A -> M B) : M B :=
  match m with
  | (Ok a, t1) => let (r, t2) := f a in (r, (t1 ++ t2)%list)
  | (Exited c, t1) => (Exited c, t1)
  | (Raised e, t1) => (Raised e, t1)
  end.

Notation "x <- c1 ;; c2" := (bind c1 (fun x => c2))
  (at level 61, c1 at next level, right associativity).
Notation "c1 ;; c2" := (bind c1 (fun _ => c2))
  (at level 61, right associativity).

Definition raise {A} (e : exn) : M A := (Raised e, []).
Definition emit (ev : event) : M unit := (Ok tt, [ev]).
Definition print (text : string) : M unit := emit (Printed text).

(** [sys.exit(status)], and [exit()]: the status of a [SystemExit]
    without argument is 0. *)
Definition sys_exit {A} (status : Z) : M A := (Exited status, []).
Definition exit {A} : M A := sys_exit 0.

(** [try: body except: handler]. The bare [except] takes every exception,
    [SystemExit] too. *)
Definition try_except {A} (body handler : M A) : M A :=
  match body with
  | (Ok a, t) => (Ok a, t)
  | (_, t) => let (r, t2) := handler in (r, (t ++ t2)%list)
  end.

Definition lift {A} (r : exn + A) : M A :=
  match r with
  | inl e => raise e
  | inr a => ret a
  end.

Definition result {A} (m : M A) : outcome A := fst m.
Definition trace {A} (m : M A) : list event := snd m.

(** The paths a run passed to [open], in order. *)
Fixpoint opened (t : list event) : list string :=
  match t with
  | [] => []
  | OpenFile p :: t' => p :: opened t'
  | Printed _ :: t' => opened t'
  end.

(** ** Operations of Python on these values *)

(** Look-up in the items of a [dict]. *)
Fixpoint assoc (k : string) (entries : list (string * pyobj)) : option pyobj :=
  match entries with
  | [] => None
  | (k', v) :: rest => if String.eqb k' k then Some v else assoc k rest
  end.

(** [o[k]] for a string [k]: only a [dict] can be indexed by a string. *)
Definition getitem (o : pyobj) (k : string) : exn + pyobj :=
  match o with
  | PyDict entries =>
      match assoc k entries with
      | Some v => inr v
      | None => inl (KeyError k)
      end
  | _ => inl TypeError
  end.

(** [needle in hay] on strings: [needle] occurs in [hay]. *)
Fixpoint occurs_in (needle hay : string) : bool :=
  String.prefix needle hay ||
  match hay with
  | EmptyString => false
  | String _ rest => occurs_in needle rest
  end.

Definition is_str (k : string) (o : pyobj) : bool :=
  match o with
  | PyStr s => String.eqb s k
  | _ => false
  end.

(** [k in o] for a string [k]: a key of a [dict], an element of a [list],
    a substring of a [str]; the other values are not iterable. *)
Definition contains (k : string) (o : pyobj) : exn + bool :=
  match o with
  | PyDict entries =>
      inr (match assoc k entries with Some _ => true | None => false end)
  | PyList elems => inr (existsb (is_str k) elems)
  | PyStr s => inr (occurs_in k s)
  | _ => inl TypeError
  end.

(** [o.items()]: only a [dict] has the method. *)
Definition items (o : pyobj) : exn + list (string * pyobj) :=
  match o with
  | PyDict entries => inr entries
  | _ => inl AttributeError
  end.

(** Truthiness of an [argparse] string attribute: [None] when the switch
    is absent, and the empty string is false as well. *)
Definition truthy (a : option string) : bool :=
  match a with
  | None => false
  | Some s => negb (String.eqb s "")
  end.

(** The value bound by [x = args.attr] under [if args.attr:]; where the
    test fails the variable stays unbound and the script never reads it. *)
Definition value (a : option string) : string :=
  match a with
  | None => ""
  | Some s => s
  end.

(** [template.format(a, b, ...)] for templates whose only fields are [{}]:
    each [{}] takes the next argument, and a field without an argument
    raises [IndexError]. The arguments are not scanned again. *)
Fixpoint format (template : string) (args : list string) : exn + string :=
  match template with
  | EmptyString => inr EmptyString
  | String "{" (String "}" rest) =>
      match args with
      | [] => inl IndexError
      | a :: args' =>
          match format rest args' with
          | inr s => inr (a ++ s)
          | inl e => inl e
          end
      end
  | String c rest =>
      match format rest args with
      | inr s => inr (String c s)
      | inl e => inl e
      end
  end.

(** ** Some general-info strings (lines 29-75 of the script) *)

Definition tab : string := String (ascii_of_nat 9) "".
Definition nl : string := String (ascii_of_nat 10) "".

Definition errorTag : string := tab ++ "***Error: ".
Definition successTag : string := tab ++ "***Success: ".
Definition infoTag : string := tab ++ "***Info: ".

Definition noArgsMsg : string := errorTag ++ "No input arguments were specified.".

Definition fileReadAttemptMsg : string := infoTag ++ "Trying to read in {}".

Definition fileEmptyMsg : string :=
  infoTag ++ "The file at {} is empty... creating the dictionary from scratch".


Definition prefixSuffixNotFoundMsg : string :=
  infoTag ++ "The {} {} could not be found in {}".

Definition explanationMsg : string := "{}: {}".

Definition rule : string := "=======================================".

Definition prefixSectionHeader : string :=
  rule ++ nl ++ "            Prefixes" ++ nl ++ rule ++ nl ++ nl.

Definition suffixSectionHeader : string :=
  nl ++ rule ++ nl ++ "            Suffixes" ++ nl ++ rule ++ nl ++ nl.

(** The namespace [parser.parse_args()] returns for the four switches of
    [parsingArguments]: [--prefix], [--suffix] and [--path_to_dict] hold a
    string or [None], [--list_all] is a [store_true] flag. *)
Record Namespace : Type := mkNamespace {
  prefix : option string;
  suffix : option string;
  list_all : bool;
  path_to_dict : option string
}.

(** What [parse_args] does: it returns the namespace, or [argparse] leaves
    the script itself, after its help text (status 0) or a usage error
    (status 2). What [argparse] writes then is no [print] of the script
    and is not among the events. *)
Inductive parsed : Type :=
| Parsed (args : Namespace)
| ParserExit (status : Z).

(** The dictionary [readInDictionary] builds when the file does not parse
    (lines 98-107). *)
Definition default_dictionary : pyobj :=
  PyDict
    [ ("Prefixes",
       PyDict
         [ ("aref_", PyStr "Indicates that the signal is to do with the auto-refresh logic.");
           ("mmu_", PyStr "Indicates that the signal is coming from the memory-management unit.") ]);
      ("Suffixes",
       PyDict
         [ ("_req", PyStr "Indicates a request line.");
           ("_ctrl", PyStr "Indicates a control signal or a signal from a control block.") ]) ].

Definition fileName : string := "rtl_dictionary.json".

(** Lines 136-150: the argument of [readInDictionary]. *)
Definition dictionaryPath (args : Namespace) : string :=
  let pathSupplied := truthy (path_to_dict args) in
  let filePath := if pathSupplied then value (path_to_dict args) else "./" in
  filePath ++ fileName.

Section Script.

(** [parser.parse_args()] on [sys.argv[1:]]. *)
Variable parse_args : list string -> parsed.

(** The file system: what [open] does at each path. *)
Variable fs : string -> open_result.

(** [json.load] on the content of a file: the value, or [None] where it
    raises. *)
Variable json_load : string -> option pyobj.

(** [str] on the values that are not strings. *)
Variable py_str : pyobj -> string.

(** What a [{}] field shows for a value: a string stands for itself. *)
Definition str (v : pyobj) : string :=
  match v with
  | PyStr s => s
  | other => py_str other
  end.

Definition parsingArguments (argv : list string) : M Namespace :=
  match parse_args (tl argv) with
  | Parsed args => ret args
  | ParserExit status => sys_exit status
  end.

(** Lines 91-108. [open] is outside the [try], so whatever it raises
    leaves the function; the first [print] and [json.load] are inside. *)
Definition readInDictionary (pathToFile : string) : M pyobj :=
  emit (OpenFile pathToFile) ;;
  match fs pathToFile with
  | NoFile why => raise (open_error why pathToFile)
  | File p =>
      try_except
        (msg <- lift (format fileReadAttemptMsg [pathToFile]) ;;
         print msg ;;
         match json_load p with
         | Some dictionary => ret dictionary
         | None => raise JSONDecodeError
         end)
        (msg <- lift (format fileEmptyMsg [pathToFile]) ;;
         print msg ;;
         ret default_dictionary)
  end.

(** Lines 154-159 and 161-166: the look-up of [key] in the section
    [section], [kind] being the word the message uses. *)
Definition lookUp (rtlDictionary : pyobj) (section kind key : string) : M unit :=
  keyList <- lift (getitem rtlDictionary section) ;;
  found <- lift (contains key keyList) ;;
  if found : bool then
    explanation <- lift (getitem keyList key) ;;
    msg <- lift (format explanationMsg [key; str explanation]) ;;
    print msg
  else
    msg <- lift (format prefixSuffixNotFoundMsg [kind; key; fileName]) ;;
    print msg.

(** The loops of lines 172-173 and 178-179: one line is appended to
    [outputMsg] for each item. *)
Definition entryLine (kv : string * pyobj) : string :=
  fst kv ++ ": " ++ str (snd kv) ++ nl.

Definition appendEntries (outputMsg : string) (entries : list (string * pyobj)) : string :=
  fold_left (fun acc kv => acc ++ entryLine kv) entries outputMsg.

(** Lines 168-182. *)
Definition listing (rtlDictionary : pyobj) : M unit :=
  let outputMsg := prefixSectionHeader in
  prefixList <- lift (getitem rtlDictionary "Prefixes") ;;
  suffixList <- lift (getitem rtlDictionary "Suffixes") ;;
  prefixItems <- lift (items prefixList) ;;
  let outputMsg := appendEntries outputMsg prefixItems in
  let outputMsg := outputMsg ++ suffixSectionHeader in
  suffixItems <- lift (items suffixList) ;;
  let outputMsg := appendEntries outputMsg suffixItems in
  print outputMsg.

Definition when (b : bool) (m : M unit) : M unit :=
  if b then m else ret tt.

(** Step 2 of [__main__] and the final [exit()] (lines 153-183). *)
Definition step2 (lookUpPrefix : bool) (prefix : string)
    (lookUpSuffix : bool) (suffix : string)
    (printOutDictionary : bool) (rtlDictionary : pyobj) : M unit :=
  when lookUpPrefix (lookUp rtlDictionary "Prefixes" "prefix" prefix) ;;
  when lookUpSuffix (lookUp rtlDictionary "Suffixes" "suffix" suffix) ;;
  when printOutDictionary (listing rtlDictionary) ;;
  exit.

(** Lines 119-183: what [__main__] does once the arguments are parsed. *)
Definition run (args : Namespace) : M unit :=
  let printOutDictionary := list_all args in
  let lookUpPrefix := truthy (prefix args) in
  let prefix := value (prefix args) in
  let lookUpSuffix := truthy (suffix args) in
  let suffix := value (suffix args) in
  rtlDictionary <- readInDictionary (dictionaryPath args) ;;
  step2 lookUpPrefix prefix lookUpSuffix suffix printOutDictionary rtlDictionary.

(** The body of [if __name__ == "__main__":] (lines 110-183);
    [sys_argv] is [sys.argv], the name of the script first. *)
Definition main (sys_argv : list string) : M unit :=
  when (Nat.eqb (length sys_argv) 1) (print noArgsMsg ;; exit) ;;
  args <- parsingArguments sys_argv ;;
  run args.

End Script.

Arguments str py_str v : simpl nomatch.

(** ** A concrete environment, to run the script on *)

Module Sample.

Definition dq : string := String (ascii_of_nat 34) "".
Definition quoted (s : string) : string := dq ++ s ++ dq.

(** The dictionary of the specification's example. *)
Definition spec_text : string :=
  "{" ++ quoted "Prefixes" ++ ": {" ++ quoted "pq_" ++ ": " ++ quoted "Placement Queue"
  ++ "}, " ++ quoted "Suffixes" ++ ": {" ++ quoted "_req" ++ ": " ++ quoted "Request line"
  ++ "}}".
Definition spec_dict : pyobj :=
  PyDict [ ("Prefixes", PyDict [("pq_", PyStr "Placement Queue")]);
           ("Suffixes", PyDict [("_req", PyStr "Request line")]) ].

(** A dictionary whose sections each hold the empty string as a key. *)
Definition blank_text : string :=
  "{" ++ quoted "Prefixes" ++ ": {" ++ quoted "" ++ ": " ++ quoted "no prefix"
  ++ "}, " ++ quoted "Suffixes" ++ ": {" ++ quoted "" ++ ": " ++ quoted "no suffix"
  ++ "}}".
Definition blank_dict : pyobj :=
  PyDict [ ("Prefixes", PyDict [("", PyStr "no prefix")]);
           ("Suffixes", PyDict [("", PyStr "no suffix")]) ].

(** A JSON object without the key [Prefixes], and one without [Suffixes]. *)
Definition suffixes_only_text : string :=
  "{" ++ quoted "Suffixes" ++ ": {" ++ quoted "_req" ++ ": " ++ quoted "Request line"
  ++ "}}".
Definition suffixes_only_dict : pyobj :=
  PyDict [ ("Suffixes", PyDict [("_req", PyStr "Request line")]) ].
Definition prefixes_only_text : string :=
  "{" ++ quoted "Prefixes" ++ ": {" ++ quoted "pq_" ++ ": " ++ quoted "Placement Queue"
  ++ "}}".
Definition prefixes_only_dict : pyobj :=
  PyDict [ ("Prefixes", PyDict [("pq_", PyStr "Placement Queue")]) ].

(** A dictionary with an entry that spells [unsupportedScriptUsageMsg]:
    the key is a tab and [***Error] (the JSON text writes the tab as a
    backslash and [t]), the explanation is the rest of the message. *)
Definition echo_key : string := tab ++ "***Error".
Definition echo_explanation : string :=
  "Only one switch (--prefix, --suffix, or --list_all) should be supplied at a time".
Definition echo_text : string :=
  "{" ++ quoted "Prefixes" ++ ": {" ++ quoted "\t***Error" ++ ": " ++ quoted echo_explanation
  ++ "}, " ++ quoted "Suffixes" ++ ": {}}".
Definition echo_dict : pyobj :=
  PyDict [ ("Prefixes", PyDict [(echo_key, PyStr echo_explanation)]);
           ("Suffixes", PyDict []) ].

(** A dictionary with two entries in each section, not in the order of
    the alphabet. *)
Definition full_text : string :=
  "{" ++ quoted "Prefixes" ++ ": {" ++ quoted "pq_" ++ ": " ++ quoted "Placement Queue"
  ++ ", " ++ quoted "aref_" ++ ": " ++ quoted "Auto-refresh logic"
  ++ "}, " ++ quoted "Suffixes" ++ ": {" ++ quoted "_req" ++ ": " ++ quoted "Request line"
  ++ ", " ++ quoted "_ack" ++ ": " ++ quoted "Acknowledge line" ++ "}}".
Definition full_dict : pyobj :=
  PyDict [ ("Prefixes", PyDict [("pq_", PyStr "Placement Queue");
                                ("aref_", PyStr "Auto-refresh logic")]);
           ("Suffixes", PyDict [("_req", PyStr "Request line");
                                ("_ack", PyStr "Acknowledge line")]) ].

(** [json.load] on the texts above; the empty text and every other text
    of the sample files is no JSON. *)
Definition json_load (content : string) : option pyobj :=
  if content =? full_text then Some full_dict
  else if content =? spec_text then Some spec_dict
  else if content =? blank_text then Some blank_dict
  else if content =? suffixes_only_text then Some suffixes_only_dict
  else if content =? prefixes_only_text then Some prefixes_only_dict
  else if content =? echo_text then Some echo_dict
  else None.

(** The files: the example dictionary in the working directory, the
    others each in a directory of its own; [empty/] holds an empty file
    and [broken/] a truncated one; under [folder/] the name
    [rtl_dictionary.json] is a directory; nothing else exists. *)
Definition fs (path : string) : open_result :=
  if path =? "./rtl_dictionary.json" then File spec_text
  else if path =? "blank/rtl_dictionary.json" then File blank_text
  else if path =? "suffixes_only/rtl_dictionary.json" then File suffixes_only_text
  else if path =? "prefixes_only/rtl_dictionary.json" then File prefixes_only_text
  else if path =? "echo/rtl_dictionary.json" then File echo_text
  else if path =? "empty/rtl_dictionary.json" then File ""
  else if path =? "broken/rtl_dictionary.json" then File "{"
  else if path =? "full/rtl_dictionary.json" then File full_text
  else if path =? "folder/rtl_dictionary.json" then NoFile IsADirectory
  else NoFile NoSuchFile.

(** No sample dictionary holds a value that is not a string, so [str]
    never reaches this function on them. *)
Definition py_str (v : pyobj) : string := "".

Definition with_prefix (ns : Namespace) (v : string) : Namespace :=
  mkNamespace (Some v) (suffix ns) (list_all ns) (path_to_dict ns).
Definition with_suffix (ns : Namespace) (v : string) : Namespace :=
  mkNamespace (prefix ns) (Some v) (list_all ns) (path_to_dict ns).
Definition with_list_all (ns : Namespace) : Namespace :=
  mkNamespace (prefix ns) (suffix ns) true (path_to_dict ns).
Definition with_path_to_dict (ns : Namespace) (v : string) : Namespace :=
  mkNamespace (prefix ns) (suffix ns) (list_all ns) (Some v).

(** A stand-in for [argparse] on command lines in plain form: each
    switch written in full, its value the next word, and no value
    starting with a dash; there [argparse] returns this namespace. The
    other command lines are outside the stand-in, which answers them all
    with the usage error (status 2). *)
Fixpoint parse_from (ns : Namespace) (words : list string) : parsed :=
  match words with
  | [] => Parsed ns
  | w :: rest =>
      if w =? "--list_all" then parse_from (with_list_all ns) rest
      else
        match rest with
        | [] => ParserExit 2
        | v :: rest' =>
            if String.prefix "-" v then ParserExit 2
            else if w =? "--prefix" then parse_from (with_prefix ns v) rest'
            else if w =? "--suffix" then parse_from (with_suffix ns v) rest'
            else if w =? "--path_to_dict" then parse_from (with_path_to_dict ns v) rest'
            else ParserExit 2
        end
  end.

Definition parse_args (words : list string) : parsed :=
  parse_from (mkNamespace None None false None) words.

Definition main : list string -> M unit :=
  main parse_args fs json_load py_str.

End Sample.

(** ** The texts of the messages, once their fields are filled *)

Definition fileReadAttemptText (path : string) : string :=
  infoTag ++ "Trying to read in " ++ path.

Definition fileEmptyText (path : string) : string :=
  infoTag ++ "The file at " ++ path ++ " is empty... creating the dictionary from scratch".

Definition notFoundText (kind key : string) : string :=
  infoTag ++ "The " ++ kind ++ " " ++ key ++ " could not be found in " ++ "rtl_dictionary.json".

(** A dictionary in the sense of the data model: a [dict] whose keys
    [Prefixes] and [Suffixes] each hold a [dict]. *)
Definition is_dictionary (D : pyobj) (P S : list (string * pyobj)) : Prop :=
  getitem D "Prefixes" = inr (PyDict P) /\ getitem D "Suffixes" = inr (PyDict S).

(** The strings of a list, one after the other. *)
Definition joinLines (lines : list string) : string :=
  fold_right String.append "" lines.


(** ** Strings and the monad *)

Lemma append_nil_r (s : string) : s ++ "" = s.
Proof. induction s as [|c s IH]; simpl; [reflexivity | now rewrite IH]. Qed.

Lemma append_assoc (a b c : string) : (a ++ b) ++ c = a ++ b ++ c.
Proof. induction a as [|x a IH]; simpl; [reflexivity | now rewrite IH]. Qed.

Lemma bind_ret_l {A B} (a : A) (f : A -> M B) : (x <- ret a ;; f x) = f a.
Proof. unfold bind, ret. destruct (f a) as [r t]. reflexivity. Qed.

Lemma bind_ok {A B} (m : M A) (f : A -> M B) (a : A) (t : list event) :
  m = (Ok a, t) ->
  (x <- m ;; f x) = (result (f a), (t ++ trace (f a))%list).
Proof. intros ->. unfold bind, result, trace. now destruct (f a). Qed.

Lemma bind_raised {A B} (m : M A) (f : A -> M B) (e : exn) (t : list event) :
  m = (Raised e, t) -> (x <- m ;; f x) = (Raised e, t).
Proof. now intros ->. Qed.

Lemma surjective_run {A} (m : M A) : m = (result m, trace m).
Proof. now destruct m. Qed.

(** ** The message templates *)

Lemma format_fileReadAttemptMsg (path : string) :
  format fileReadAttemptMsg [path] = inr (fileReadAttemptText path).
Proof. cbn. now rewrite append_nil_r. Qed.

Lemma format_fileEmptyMsg (path : string) :
  format fileEmptyMsg [path] = inr (fileEmptyText path).
Proof. reflexivity. Qed.

Lemma format_explanationMsg (key explanation : string) :
  format explanationMsg [key; explanation] = inr (key ++ ": " ++ explanation).
Proof. cbn. now rewrite append_nil_r. Qed.

Lemma format_prefixSuffixNotFoundMsg (kind key file : string) :
  format prefixSuffixNotFoundMsg [kind; key; file]
  = inr (infoTag ++ "The " ++ kind ++ " " ++ key ++ " could not be found in " ++ file).
Proof. cbn. now rewrite append_nil_r. Qed.

Section Properties.

Variable parse_args : list string -> parsed.
Variable fs : string -> open_result.
Variable json_load : string -> option pyobj.
Variable py_str : pyobj -> string.

Local Abbreviation readInDictionary := (readInDictionary fs json_load).
Local Abbreviation str := (str py_str).
Local Abbreviation lookUp := (lookUp py_str).
Local Abbreviation entryLine := (entryLine py_str).
Local Abbreviation appendEntries := (appendEntries py_str).
Local Abbreviation listing := (listing py_str).
Local Abbreviation step2 := (step2 py_str).
Local Abbreviation run := (run fs json_load py_str).
Local Abbreviation main := (main parse_args fs json_load py_str).

(** What a look-up in the entries of a section prints. *)
Definition lookUpLine (kind key : string) (entries : list (string * pyobj)) : string :=
  match assoc key entries with
  | Some v => key ++ ": " ++ str v
  | None => notFoundText kind key
  end.

(** What the listing of two sections prints. *)
Definition listingText (P S : list (string * pyobj)) : string :=
  prefixSectionHeader ++ joinLines (map entryLine P)
  ++ suffixSectionHeader ++ joinLines (map entryLine S).

(** *** The loader *)

Lemma readInDictionary_parsed (path content : string) (D : pyobj) :
  fs path = File content ->
  json_load content = Some D ->
  readInDictionary path
  = (Ok D, [OpenFile path; Printed (fileReadAttemptText path)]).
Proof.
  intros Hfs Hjs. unfold readInDictionary. rewrite Hfs.
  rewrite format_fileReadAttemptMsg, format_fileEmptyMsg, Hjs.
  reflexivity.
Qed.

Lemma readInDictionary_unparsed (path content : string) :
  fs path = File content ->
  json_load content = None ->
  readInDictionary path
  = (Ok default_dictionary,
     [OpenFile path; Printed (fileReadAttemptText path); Printed (fileEmptyText path)]).
Proof.
  intros Hfs Hjs. unfold readInDictionary. rewrite Hfs.
  rewrite format_fileReadAttemptMsg, format_fileEmptyMsg, Hjs.
  reflexivity.
Qed.

Lemma readInDictionary_fails (path : string) (why : open_failure) :
  fs path = NoFile why ->
  readInDictionary path = (Raised (open_error why path), [OpenFile path]).
Proof. intros Hfs. unfold readInDictionary. now rewrite Hfs. Qed.

Lemma readInDictionary_missing (path : string) :
  fs path = NoFile NoSuchFile ->
  readInDictionary path = (Raised (FileNotFoundError path), [OpenFile path]).
Proof. apply readInDictionary_fails. Qed.

(** The loader opens its argument once, and nothing else. *)
Lemma readInDictionary_opened (path : string) :
  opened (trace (readInDictionary path)) = [path].
Proof.
  destruct (fs path) as [content|why] eqn:Hfs.
  - destruct (json_load content) as [D|] eqn:Hjs.
    + now rewrite (readInDictionary_parsed _ _ _ Hfs Hjs).
    + now rewrite (readInDictionary_unparsed _ _ Hfs Hjs).
  - now rewrite (readInDictionary_fails _ _ Hfs).
Qed.

(** *** The command line *)


Lemma main_parsed (sys_argv : list string) (args : Namespace) :
  length sys_argv <> 1 ->
  parse_args (tl sys_argv) = Parsed args ->
  main sys_argv = run args.
Proof.
  intros Hlen Hparse. unfold main, parsingArguments.
  destruct (Nat.eqb_spec (length sys_argv) 1) as [Heq|_]; [contradiction|].
  rewrite Hparse. cbn [when]. now rewrite !bind_ret_l.
Qed.

Lemma main_parser_exit (sys_argv : list string) (status : Z) :
  length sys_argv <> 1 ->
  parse_args (tl sys_argv) = ParserExit status ->
  main sys_argv = (Exited status, []).
Proof.
  intros Hlen Hparse. unfold main, parsingArguments.
  destruct (Nat.eqb_spec (length sys_argv) 1) as [Heq|_]; [contradiction|].
  rewrite Hparse. reflexivity.
Qed.

(** A run is the loader, then step 2 on what it returned. *)
Lemma run_loaded (args : Namespace) (D : pyobj) (t : list event) :
  readInDictionary (dictionaryPath args) = (Ok D, t) ->
  run args
  = (result (step2 (truthy (prefix args)) (value (prefix args))
                   (truthy (suffix args)) (value (suffix args))
                   (list_all args) D),
     (t ++ trace (step2 (truthy (prefix args)) (value (prefix args))
                        (truthy (suffix args)) (value (suffix args))
                        (list_all args) D))%list).
Proof. intros H. unfold run. now apply bind_ok. Qed.

(** *** The look-up *)

Lemma lookUp_found (D : pyobj) (section kind key : string)
    (entries : list (string * pyobj)) (v : pyobj) :
  getitem D section = inr (PyDict entries) ->
  assoc key entries = Some v ->
  lookUp D section kind key = (Ok tt, [Printed (key ++ ": " ++ str v)]).
Proof.
  intros HD Hk. unfold lookUp. rewrite HD. cbn [lift]. rewrite bind_ret_l.
  cbn [contains getitem]. rewrite Hk. cbn [lift]. rewrite !bind_ret_l.
  rewrite format_explanationMsg. reflexivity.
Qed.

Lemma lookUp_absent (D : pyobj) (section kind key : string)
    (entries : list (string * pyobj)) :
  getitem D section = inr (PyDict entries) ->
  assoc key entries = None ->
  lookUp D section kind key
  = (Ok tt, [Printed (infoTag ++ "The " ++ kind ++ " " ++ key
                      ++ " could not be found in " ++ "rtl_dictionary.json")]).
Proof.
  intros HD Hk. unfold lookUp. rewrite HD. cbn [lift]. rewrite bind_ret_l.
  cbn [contains]. rewrite Hk. cbn [lift]. rewrite !bind_ret_l.
  rewrite format_prefixSuffixNotFoundMsg. reflexivity.
Qed.

Lemma lookUp_missing_section (D : pyobj) (section kind key : string)
    (entries : list (string * pyobj)) :
  D = PyDict entries ->
  assoc section entries = None ->
  lookUp D section kind key = (Raised (KeyError section), []).
Proof. intros -> H. unfold lookUp, getitem. now rewrite H. Qed.

(** Exact matching: [assoc] finds nothing exactly when the string differs
    from every key. *)
Lemma assoc_None (key : string) (entries : list (string * pyobj)) :
  assoc key entries = None <-> ~ In key (map fst entries).
Proof.
  induction entries as [|[k v] rest IH]; simpl.
  - tauto.
  - destruct (String.eqb_spec k key) as [->|Hne].
    + split; [discriminate | intros H; exfalso; apply H; now left].
    + rewrite IH. split; [intros H [Heq|Hin]; auto | intros H Hin; apply H; now right].
Qed.

Lemma assoc_Some_In (key : string) (entries : list (string * pyobj)) (v : pyobj) :
  assoc key entries = Some v -> In (key, v) entries.
Proof.
  induction entries as [|[k w] rest IH]; simpl; [discriminate|].
  destruct (String.eqb_spec k key) as [->|Hne].
  - intros [= ->]. now left.
  - intros H. right. auto.
Qed.

Lemma lookUp_dictionary (D : pyobj) (section kind key : string)
    (entries : list (string * pyobj)) :
  getitem D section = inr (PyDict entries) ->
  lookUp D section kind key = (Ok tt, [Printed (lookUpLine kind key entries)]).
Proof.
  intros HD. unfold lookUpLine.
  destruct (assoc key entries) as [v|] eqn:Hk.
  - now apply lookUp_found with (entries := entries).
  - now apply lookUp_absent with (entries := entries).
Qed.

(** Every way a look-up can end, whatever value was loaded. *)
Lemma lookUp_cases (D : pyobj) (section kind key : string) :
  (exists e, lookUp D section kind key = (Raised e, []))
  \/ (exists entries,
        getitem D section = inr (PyDict entries)
        /\ lookUp D section kind key = (Ok tt, [Printed (lookUpLine kind key entries)]))
  \/ ((forall entries, getitem D section <> inr (PyDict entries))
      /\ lookUp D section kind key = (Ok tt, [Printed (notFoundText kind key)])).
Proof.
  destruct (getitem D section) as [e|keyList] eqn:HD.
  - left. exists e. unfold lookUp. now rewrite HD.
  - destruct keyList as [| b | n | f | s | elems | entries].
    1-4: left; exists TypeError; unfold lookUp; now rewrite HD.
    + destruct (occurs_in key s) eqn:Hin.
      * left. exists TypeError. unfold lookUp. rewrite HD. cbn. now rewrite Hin.
      * right; right. split; [congruence|].
        unfold lookUp. rewrite HD. cbn [lift]. rewrite bind_ret_l.
        cbn [lift contains]. rewrite bind_ret_l, Hin.
        now rewrite format_prefixSuffixNotFoundMsg.
    + destruct (existsb (is_str key) elems) eqn:Hin.
      * left. exists TypeError. unfold lookUp. rewrite HD. cbn. now rewrite Hin.
      * right; right. split; [congruence|].
        unfold lookUp. rewrite HD. cbn [lift]. rewrite bind_ret_l.
        cbn [lift contains]. rewrite bind_ret_l, Hin.
        now rewrite format_prefixSuffixNotFoundMsg.
    + right; left. exists entries. split; [reflexivity|].
      now apply lookUp_dictionary.
Qed.

(** *** The listing *)

Lemma appendEntries_joinLines (outputMsg : string) (entries : list (string * pyobj)) :
  appendEntries outputMsg entries = outputMsg ++ joinLines (map entryLine entries).
Proof.
  unfold appendEntries. revert outputMsg.
  induction entries as [|kv rest IH]; intros outputMsg; simpl.
  - now rewrite append_nil_r.
  - now rewrite IH, append_assoc.
Qed.

Lemma listing_dictionary (D : pyobj) (P S : list (string * pyobj)) :
  is_dictionary D P S ->
  listing D = (Ok tt, [Printed (listingText P S)]).
Proof.
  intros [HP HS]. unfold listing. rewrite HP, HS.
  repeat (cbn [lift items]; rewrite bind_ret_l).
  rewrite !appendEntries_joinLines, !append_assoc. reflexivity.
Qed.

Lemma listing_cases (D : pyobj) :
  (exists e, listing D = (Raised e, []))
  \/ (exists P S, is_dictionary D P S /\ listing D = (Ok tt, [Printed (listingText P S)])).
Proof.
  destruct (getitem D "Prefixes") as [e|prefixList] eqn:HP.
  { left. exists e. unfold listing. now rewrite HP. }
  destruct (getitem D "Suffixes") as [e|suffixList] eqn:HS.
  { left. exists e. unfold listing. now rewrite HP, HS. }
  destruct prefixList as [| b | n | f | s | elems | P];
    try (left; exists AttributeError; unfold listing; now rewrite HP, HS).
  destruct suffixList as [| b | n | f | s | elems | S];
    try (left; exists AttributeError; unfold listing; now rewrite HP, HS).
  right. exists P, S. split; [now split|]. now apply listing_dictionary.
Qed.

Lemma listing_missing_section (entries : list (string * pyobj)) :
  assoc "Prefixes" entries = None \/ assoc "Suffixes" entries = None ->
  listing (PyDict entries)
  = (Raised (KeyError (match assoc "Prefixes" entries with
                       | None => "Prefixes"
                       | Some _ => "Suffixes"
                       end)), []).
Proof.
  intros H. unfold listing, getitem.
  destruct (assoc "Prefixes" entries) as [p|]; [|reflexivity].
  destruct H as [H|H]; [discriminate|]. now rewrite H.
Qed.

(** *** Step 2 *)

Lemma step2_completes (lookUpPrefix lookUpSuffix printOutDictionary : bool)
    (prefix suffix : string) (D : pyobj) (t1 t2 t3 : list event) :
  when lookUpPrefix (lookUp D "Prefixes" "prefix" prefix) = (Ok tt, t1) ->
  when lookUpSuffix (lookUp D "Suffixes" "suffix" suffix) = (Ok tt, t2) ->
  when printOutDictionary (listing D) = (Ok tt, t3) ->
  step2 lookUpPrefix prefix lookUpSuffix suffix printOutDictionary D
  = (Exited 0%Z, (t1 ++ t2 ++ t3)%list).
Proof.
  intros H1 H2 H3. unfold step2. rewrite H1, H2, H3. cbn.
  now rewrite app_nil_r.
Qed.

(** On a dictionary every requested operation prints its one string, in
    the order prefix, suffix, listing, and the script exits with status 0. *)
Lemma step2_dictionary (lookUpPrefix lookUpSuffix printOutDictionary : bool)
    (prefix suffix : string) (D : pyobj) (P S : list (string * pyobj)) :
  is_dictionary D P S ->
  step2 lookUpPrefix prefix lookUpSuffix suffix printOutDictionary D
  = (Exited 0%Z,
     ((if lookUpPrefix then [Printed (lookUpLine "prefix" prefix P)] else [])
      ++ (if lookUpSuffix then [Printed (lookUpLine "suffix" suffix S)] else [])
      ++ (if printOutDictionary then [Printed (listingText P S)] else []))%list).
Proof.
  intros HD. apply step2_completes.
  - destruct lookUpPrefix; [|reflexivity]. apply lookUp_dictionary, HD.
  - destruct lookUpSuffix; [|reflexivity]. apply lookUp_dictionary, HD.
  - destruct printOutDictionary; [|reflexivity]. now apply listing_dictionary.
Qed.

Lemma run_dictionary (args : Namespace) (D : pyobj) (P S : list (string * pyobj)) :
  result (readInDictionary (dictionaryPath args)) = Ok D ->
  is_dictionary D P S ->
  run args
  = (Exited 0%Z,
     (trace (readInDictionary (dictionaryPath args))
      ++ (if truthy (prefix args)
          then [Printed (lookUpLine "prefix" (value (prefix args)) P)] else [])
      ++ (if truthy (suffix args)
          then [Printed (lookUpLine "suffix" (value (suffix args)) S)] else [])
      ++ (if list_all args then [Printed (listingText P S)] else []))%list).
Proof.
  intros Hload HD.
  rewrite (run_loaded args D (trace (readInDictionary (dictionaryPath args)))).
  - now rewrite (step2_dictionary _ _ _ _ _ D P S HD).
  - rewrite <- Hload. apply surjective_run.
Qed.

Lemma truthy_Some (k : string) : k <> "" -> truthy (Some k) = true.
Proof. intros Hk. simpl. now destruct (String.eqb_spec k ""). Qed.

Lemma main_dictionary (sys_argv : list string) (args : Namespace) (D : pyobj)
    (P S : list (string * pyobj)) :
  length sys_argv <> 1 ->
  parse_args (tl sys_argv) = Parsed args ->
  result (readInDictionary (dictionaryPath args)) = Ok D ->
  is_dictionary D P S ->
  main sys_argv
  = (Exited 0%Z,
     (trace (readInDictionary (dictionaryPath args))
      ++ (if truthy (prefix args)
          then [Printed (lookUpLine "prefix" (value (prefix args)) P)] else [])
      ++ (if truthy (suffix args)
          then [Printed (lookUpLine "suffix" (value (suffix args)) S)] else [])
      ++ (if list_all args then [Printed (listingText P S)] else []))%list).
Proof.
  intros Hlen Hparse Hload HD.
  rewrite (main_parsed _ _ Hlen Hparse). now apply run_dictionary with (D := D).
Qed.

(** ** The claims *)

(** C1 (as amended). For every dictionary [D] that the loader returns and
    every key [k] other than the empty string: when the command line gives
    [--prefix k] and [k] is a key of [D]'s Prefixes, the run prints the
    line made of [k], a colon and a space, and the explanation stored for
    [k]; the same holds for [--suffix k] and [D]'s Suffixes. *)
Theorem C1_lookup_prints_explanation
    (sys_argv : list string) (args : Namespace) (D : pyobj)
    (P S : list (string * pyobj)) (k : string) (v : pyobj) :
  length sys_argv <> 1 ->
  parse_args (tl sys_argv) = Parsed args ->
  result (readInDictionary (dictionaryPath args)) = Ok D ->
  is_dictionary D P S ->
  k <> "" ->
  (prefix args = Some k -> assoc k P = Some v ->
   In (Printed (k ++ ": " ++ str v)) (trace (main sys_argv)))
  /\ (suffix args = Some k -> assoc k S = Some v ->
      In (Printed (k ++ ": " ++ str v)) (trace (main sys_argv))).
Proof.
  intros Hlen Hparse Hload HD Hk.
  rewrite (main_dictionary _ _ _ _ _ Hlen Hparse Hload HD). unfold trace at 1 3. cbn [snd].
  split; intros Hsw Hv; rewrite Hsw, (truthy_Some _ Hk); cbn [value];
    unfold lookUpLine; rewrite Hv.
  - apply in_or_app. right. apply in_or_app. left. now left.
  - apply in_or_app. right. apply in_or_app. right. apply in_or_app. left. now left.
Qed.

(** C2 (as amended). For every dictionary [D] that the loader returns and
    every string [k] other than the empty string: when the command line
    gives [--prefix k] and [k] differs from every key of [D]'s Prefixes,
    the run prints the not-found message, which names the kind [prefix],
    the value [k] and the file name [rtl_dictionary.json]; the same holds
    for [--suffix k], the kind being [suffix]. The comparison is equality
    of strings: nothing is folded or trimmed. *)
Theorem C2_lookup_prints_not_found
    (sys_argv : list string) (args : Namespace) (D : pyobj)
    (P S : list (string * pyobj)) (k : string) :
  length sys_argv <> 1 ->
  parse_args (tl sys_argv) = Parsed args ->
  result (readInDictionary (dictionaryPath args)) = Ok D ->
  is_dictionary D P S ->
  k <> "" ->
  (prefix args = Some k -> ~ In k (map fst P) ->
   In (Printed (infoTag ++ "The prefix " ++ k ++ " could not be found in rtl_dictionary.json"))
      (trace (main sys_argv)))
  /\ (suffix args = Some k -> ~ In k (map fst S) ->
      In (Printed (infoTag ++ "The suffix " ++ k ++ " could not be found in rtl_dictionary.json"))
         (trace (main sys_argv))).
Proof.
  intros Hlen Hparse Hload HD Hk.
  rewrite (main_dictionary _ _ _ _ _ Hlen Hparse Hload HD). unfold trace at 1 3. cbn [snd].
  split; intros Hsw Hv; rewrite Hsw, (truthy_Some _ Hk); cbn [value];
    unfold lookUpLine; apply assoc_None in Hv; rewrite Hv.
  - apply in_or_app. right. apply in_or_app. left. now left.
  - apply in_or_app. right. apply in_or_app. right. apply in_or_app. left. now left.
Qed.

Lemma unique_keys_split (entries : list (string * pyobj)) (k : string) (v : pyobj) :
  unique_keys entries ->
  assoc k entries = Some v ->
  exists l1 l2,
    entries = (l1 ++ (k, v) :: l2)%list
    /\ ~ In k (map fst l1) /\ ~ In k (map fst l2).
Proof.
  unfold unique_keys. intros Hnd Hv.
  destruct (in_split _ _ (assoc_Some_In _ _ _ Hv)) as [l1 [l2 ->]].
  exists l1, l2. split; [reflexivity|].
  rewrite map_app in Hnd. cbn [map fst] in Hnd.
  apply NoDup_remove_2 in Hnd.
  split; intros Hin; apply Hnd, in_or_app; [now left | now right].
Qed.

Lemma joinLines_middle (f : string * pyobj -> string)
    (l1 l2 : list (string * pyobj)) (kv : string * pyobj) :
  joinLines (map f (l1 ++ kv :: l2))
  = joinLines (map f l1) ++ f kv ++ joinLines (map f l2).
Proof.
  induction l1 as [|x l1 IH]; simpl; [reflexivity|].
  now rewrite IH, append_assoc.
Qed.

(** C3. When [--list_all] is set and the loader returns a dictionary, the
    listing is one call of [print], the last of the run. Its string is
    the Prefixes header (a rule of 39 signs, the word under it, a rule
    and an empty line), one line [key: explanation] for each entry of the
    Prefixes section in the order of the section, the Suffixes header
    (an empty line first, then as the other), and one line for each entry
    of the Suffixes section likewise. Each key of a section appears
    exactly once: the string printed is, between the headers, the lines
    of entries with other keys, the line of the key, and again lines of
    entries with other keys. The lines of the prefixes all come before
    the Suffixes header. *)
Theorem C3_list_all_prints_one_block
    (sys_argv : list string) (args : Namespace) (D : pyobj)
    (P S : list (string * pyobj)) :
  length sys_argv <> 1 ->
  parse_args (tl sys_argv) = Parsed args ->
  list_all args = true ->
  result (readInDictionary (dictionaryPath args)) = Ok D ->
  is_dictionary D P S ->
  unique_keys P ->
  unique_keys S ->
  main sys_argv
  = (Exited 0%Z,
     (trace (readInDictionary (dictionaryPath args))
      ++ (if truthy (prefix args)
          then [Printed (lookUpLine "prefix" (value (prefix args)) P)] else [])
      ++ (if truthy (suffix args)
          then [Printed (lookUpLine "suffix" (value (suffix args)) S)] else [])
      ++ [Printed ("=======================================
            Prefixes
=======================================

"
                   ++ joinLines (map (fun kv => fst kv ++ ": " ++ str (snd kv) ++ nl) P)
                   ++ "
=======================================
            Suffixes
=======================================

"
                   ++ joinLines (map (fun kv => fst kv ++ ": " ++ str (snd kv) ++ nl) S))%string])%list)
  /\ nl = String (ascii_of_nat 10) EmptyString
  /\ prefixSectionHeader = "=======================================
            Prefixes
=======================================

"
  /\ suffixSectionHeader = "
=======================================
            Suffixes
=======================================

"
  /\ (forall k v, assoc k P = Some v ->
      exists l1 l2,
        P = (l1 ++ (k, v) :: l2)%list
        /\ ~ In k (map fst l1) /\ ~ In k (map fst l2)
        /\ In (Printed (prefixSectionHeader
                        ++ joinLines (map entryLine l1)
                        ++ (k ++ ": " ++ str v ++ nl)
                        ++ joinLines (map entryLine l2)
                        ++ suffixSectionHeader
                        ++ joinLines (map entryLine S)))
              (trace (main sys_argv)))
  /\ (forall k v, assoc k S = Some v ->
      exists l1 l2,
        S = (l1 ++ (k, v) :: l2)%list
        /\ ~ In k (map fst l1) /\ ~ In k (map fst l2)
        /\ In (Printed (prefixSectionHeader
                        ++ joinLines (map entryLine P)
                        ++ suffixSectionHeader
                        ++ joinLines (map entryLine l1)
                        ++ (k ++ ": " ++ str v ++ nl)
                        ++ joinLines (map entryLine l2)))
              (trace (main sys_argv))).
Proof.
  intros Hlen Hparse Hall Hload HD HP HS.
  pose proof (main_dictionary _ _ _ _ _ Hlen Hparse Hload HD) as Hmain.
  rewrite Hall in Hmain.
  assert (Hlast : In (Printed (listingText P S)) (trace (main sys_argv))).
  { rewrite Hmain. cbn [trace snd]. repeat (apply in_or_app; right). now left. }
  split; [exact Hmain|]. repeat (split; [reflexivity|]). split.
  - intros k v Hv. destruct (unique_keys_split _ _ _ HP Hv) as [l1 [l2 [HPs [H1 H2]]]].
    exists l1, l2. repeat (split; [assumption|]).
    replace (prefixSectionHeader ++ joinLines (map entryLine l1)
             ++ (k ++ ": " ++ str v ++ nl) ++ joinLines (map entryLine l2)
             ++ suffixSectionHeader ++ joinLines (map entryLine S))
      with (listingText P S); [exact Hlast|].
    change (listingText P S)
      with (prefixSectionHeader ++ joinLines (map entryLine P)
            ++ suffixSectionHeader ++ joinLines (map entryLine S)).
    rewrite HPs, joinLines_middle.
    rewrite (append_assoc (joinLines (map entryLine l1))).
    rewrite (append_assoc (entryLine (k, v))). reflexivity.
  - intros k v Hv. destruct (unique_keys_split _ _ _ HS Hv) as [l1 [l2 [HSs [H1 H2]]]].
    exists l1, l2. repeat (split; [assumption|]).
    replace (prefixSectionHeader ++ joinLines (map entryLine P)
             ++ suffixSectionHeader ++ joinLines (map entryLine l1)
             ++ (k ++ ": " ++ str v ++ nl) ++ joinLines (map entryLine l2))
      with (listingText P S); [exact Hlast|].
    change (listingText P S)
      with (prefixSectionHeader ++ joinLines (map entryLine P)
            ++ suffixSectionHeader ++ joinLines (map entryLine S)).
    rewrite HSs, joinLines_middle. reflexivity.
Qed.

(** C4. If the file opens and its content is empty or is no JSON, the
    loader prints the two Info messages (the attempt, then the one that
    calls the file empty) and returns the built-in dictionary, whose
    Prefixes hold [aref_] and [mmu_] and whose Suffixes hold [_req] and
    [_ctrl] with the explanations of the script; the run goes on: the
    requested operations run on that dictionary and the script exits with
    status 0. That [json.load] raises on an empty file is the one fact
    about the library the statement assumes. *)
Theorem C4_unparsable_file_gives_default (path content : string) :
  json_load "" = None ->
  fs path = File content ->
  content = "" \/ json_load content = None ->
  readInDictionary path
  = (Ok default_dictionary,
     [OpenFile path;
      Printed (infoTag ++ "Trying to read in " ++ path);
      Printed (infoTag ++ "The file at " ++ path
               ++ " is empty... creating the dictionary from scratch")])
  /\ (exists P S,
        is_dictionary default_dictionary P S
        /\ assoc "aref_" P
           = Some (PyStr "Indicates that the signal is to do with the auto-refresh logic.")
        /\ assoc "mmu_" P
           = Some (PyStr "Indicates that the signal is coming from the memory-management unit.")
        /\ assoc "_req" S = Some (PyStr "Indicates a request line.")
        /\ assoc "_ctrl" S
           = Some (PyStr "Indicates a control signal or a signal from a control block.")
        /\ forall sys_argv args,
             length sys_argv <> 1 ->
             parse_args (tl sys_argv) = Parsed args ->
             dictionaryPath args = path ->
             main sys_argv
             = (Exited 0%Z,
                ([OpenFile path;
                  Printed (infoTag ++ "Trying to read in " ++ path);
                  Printed (infoTag ++ "The file at " ++ path
                           ++ " is empty... creating the dictionary from scratch")]
                 ++ (if truthy (prefix args)
                     then [Printed (lookUpLine "prefix" (value (prefix args)) P)] else [])
                 ++ (if truthy (suffix args)
                     then [Printed (lookUpLine "suffix" (value (suffix args)) S)] else [])
                 ++ (if list_all args then [Printed (listingText P S)] else []))%list)).
Proof.
  intros Hempty Hfs Hcontent.
  assert (Hjs : json_load content = None) by (destruct Hcontent as [->|H]; assumption).
  pose proof (readInDictionary_unparsed _ _ Hfs Hjs) as Hread.
  split; [exact Hread|].
  eexists. eexists. split; [split; reflexivity|].
  repeat (split; [reflexivity|]).
  intros sys_argv args Hlen Hparse Hpath. subst path.
  change [OpenFile (dictionaryPath args);
          Printed (infoTag ++ "Trying to read in " ++ dictionaryPath args);
          Printed (infoTag ++ "The file at " ++ dictionaryPath args
                   ++ " is empty... creating the dictionary from scratch")]
    with (trace (Ok default_dictionary,
                 [OpenFile (dictionaryPath args);
                  Printed (fileReadAttemptText (dictionaryPath args));
                  Printed (fileEmptyText (dictionaryPath args))])).
  rewrite <- Hread.
  apply main_dictionary with (D := default_dictionary); trivial.
  - now rewrite Hread.
  - split; reflexivity.
Qed.

(** C5. If there is no file at the path the script computes, [open]
    fails and nothing catches the error: the run ends with
    [FileNotFoundError] right after the call of [open], the built-in
    dictionary is not substituted, and nothing is printed, so no look-up
    and no listing takes place. *)
Theorem C5_missing_file_aborts (sys_argv : list string) (args : Namespace) :
  length sys_argv <> 1 ->
  parse_args (tl sys_argv) = Parsed args ->
  fs (dictionaryPath args) = NoFile NoSuchFile ->
  main sys_argv
  = (Raised (FileNotFoundError (dictionaryPath args)), [OpenFile (dictionaryPath args)]).
Proof.
  intros Hlen Hparse Hfs. rewrite (main_parsed _ _ Hlen Hparse). unfold run.
  now rewrite (bind_raised _ _ _ _ (readInDictionary_missing _ Hfs)).
Qed.

(** C6. Called without any argument ([sys.argv] holds the name of the
    script alone), the script prints the no-arguments message and exits
    at once with status 0: that message is the only event, so no file is
    opened, nothing is looked up and nothing is listed. *)
Theorem C6_no_arguments (script : string) :
  main [script] = (Exited 0%Z, [Printed noArgsMsg])
  /\ noArgsMsg = tab ++ "***Error: No input arguments were specified."
  /\ opened (trace (main [script])) = [].
Proof. repeat split. Qed.

(** *** What a run opens *)

Lemma trace_bind {A B} (m : M A) (f : A -> M B) :
  trace (x <- m ;; f x)
  = (trace m ++ match result m with
                | Ok a => trace (f a)
                | _ => []
                end)%list.
Proof.
  destruct m as [[a|c|e] t]; cbn; [now destruct (f a) | now rewrite app_nil_r ..].
Qed.

Lemma opened_app (t1 t2 : list event) :
  opened (t1 ++ t2) = (opened t1 ++ opened t2)%list.
Proof.
  induction t1 as [|[p|s] t1 IH]; simpl; [reflexivity | now rewrite IH | exact IH].
Qed.

Lemma bind_opens_nothing {A B} (m : M A) (f : A -> M B) :
  opened (trace m) = [] ->
  (forall a, opened (trace (f a)) = []) ->
  opened (trace (x <- m ;; f x)) = [].
Proof.
  intros Hm Hf. rewrite trace_bind, opened_app, Hm.
  destruct (result m); simpl; auto.
Qed.

Lemma lookUp_opens_nothing (D : pyobj) (section kind key : string) :
  opened (trace (lookUp D section kind key)) = [].
Proof.
  destruct (lookUp_cases D section kind key) as [[e H]|[[entries [_ H]]|[_ H]]];
    now rewrite H.
Qed.

Lemma listing_opens_nothing (D : pyobj) : opened (trace (listing D)) = [].
Proof.
  destruct (listing_cases D) as [[e H]|[P [S [_ H]]]]; now rewrite H.
Qed.

Lemma when_opens_nothing (b : bool) (m : M unit) :
  opened (trace m) = [] -> opened (trace (when b m)) = [].
Proof. now destruct b. Qed.

Lemma step2_opens_nothing (lookUpPrefix lookUpSuffix printOutDictionary : bool)
    (prefix suffix : string) (D : pyobj) :
  opened (trace (step2 lookUpPrefix prefix lookUpSuffix suffix printOutDictionary D)) = [].
Proof.
  unfold step2.
  apply bind_opens_nothing; [apply when_opens_nothing, lookUp_opens_nothing|intros _].
  apply bind_opens_nothing; [apply when_opens_nothing, lookUp_opens_nothing|intros _].
  apply bind_opens_nothing; [apply when_opens_nothing, listing_opens_nothing|intros _].
  reflexivity.
Qed.

Lemma run_opened (args : Namespace) :
  opened (trace (run args)) = [dictionaryPath args].
Proof.
  unfold run. rewrite trace_bind, opened_app, readInDictionary_opened.
  destruct (result (readInDictionary (dictionaryPath args))); simpl;
    [now rewrite step2_opens_nothing | reflexivity ..].
Qed.

(** C7 (as amended). The script opens one file. When [--path_to_dict]
    has a value other than the empty string, the path is that value
    followed at once by [rtl_dictionary.json], nothing put between them
    and nothing normalized; when [--path_to_dict] is absent, or its value
    is the empty string, the path is [./rtl_dictionary.json]. *)
Theorem C7_dictionary_path (sys_argv : list string) (args : Namespace) :
  length sys_argv <> 1 ->
  parse_args (tl sys_argv) = Parsed args ->
  (forall p, path_to_dict args = Some p -> p <> "" ->
     opened (trace (main sys_argv)) = [p ++ "rtl_dictionary.json"])
  /\ (path_to_dict args = None \/ path_to_dict args = Some "" ->
      opened (trace (main sys_argv)) = ["./rtl_dictionary.json"]).
Proof.
  intros Hlen Hparse. rewrite (main_parsed _ _ Hlen Hparse), run_opened.
  unfold dictionaryPath. split.
  - intros p Hp Hne. rewrite Hp, (truthy_Some _ Hne). reflexivity.
  - intros [Hp|Hp]; rewrite Hp; reflexivity.
Qed.

(** *** Which strings a run can print *)









Lemma Printed_inj (a b : string) : Printed a = Printed b -> a = b.
Proof. intros H. now inversion H. Qed.








(** C9. If the file holds a JSON object without the key [Prefixes] or
    without the key [Suffixes], the loader returns that object as it is
    (the built-in dictionary comes in only when parsing fails). Then a
    requested prefix look-up without [Prefixes] ends the run with
    [KeyError]; so does a requested suffix look-up without [Suffixes],
    and so does a requested listing when either key is missing, each
    provided the operations before it in the run were not requested or
    came back; nothing is printed from there on. *)
Theorem C9_missing_section_key_error (path content : string)
    (entries : list (string * pyobj)) :
  fs path = File content ->
  json_load content = Some (PyDict entries) ->
  assoc "Prefixes" entries = None \/ assoc "Suffixes" entries = None ->
  readInDictionary path
  = (Ok (PyDict entries), [OpenFile path; Printed (infoTag ++ "Trying to read in " ++ path)])
  /\ forall sys_argv args,
       length sys_argv <> 1 ->
       parse_args (tl sys_argv) = Parsed args ->
       dictionaryPath args = path ->
       (assoc "Prefixes" entries = None ->
        truthy (prefix args) = true ->
        main sys_argv
        = (Raised (KeyError "Prefixes"),
           [OpenFile path; Printed (infoTag ++ "Trying to read in " ++ path)]))
       /\ (assoc "Suffixes" entries = None ->
           truthy (suffix args) = true ->
           forall t1,
             when (truthy (prefix args))
                  (lookUp (PyDict entries) "Prefixes" "prefix" (value (prefix args)))
             = (Ok tt, t1) ->
             main sys_argv
             = (Raised (KeyError "Suffixes"),
                ([OpenFile path; Printed (infoTag ++ "Trying to read in " ++ path)]
                 ++ t1)%list))
       /\ (list_all args = true ->
           forall t1 t2,
             when (truthy (prefix args))
                  (lookUp (PyDict entries) "Prefixes" "prefix" (value (prefix args)))
             = (Ok tt, t1) ->
             when (truthy (suffix args))
                  (lookUp (PyDict entries) "Suffixes" "suffix" (value (suffix args)))
             = (Ok tt, t2) ->
             main sys_argv
             = (Raised (KeyError (match assoc "Prefixes" entries with
                                  | None => "Prefixes"
                                  | Some _ => "Suffixes"
                                  end)),
                ([OpenFile path; Printed (infoTag ++ "Trying to read in " ++ path)]
                 ++ t1 ++ t2)%list)).
Proof.
  intros Hfs Hjs Hmissing.
  pose proof (readInDictionary_parsed _ _ _ Hfs Hjs) as Hread.
  split; [exact Hread|].
  intros sys_argv args Hlen Hparse Hpath. subst path.
  rewrite (main_parsed _ _ Hlen Hparse).
  rewrite (run_loaded _ _ _ Hread). unfold step2, result, trace.
  split; [|split].
  - intros HP Hsw. rewrite Hsw. cbn [when].
    now rewrite (lookUp_missing_section _ _ _ _ _ eq_refl HP).
  - intros HS Hsw t1 H1. rewrite H1, Hsw. cbn [when].
    rewrite (lookUp_missing_section _ "Suffixes" _ _ _ eq_refl HS). cbn.
    now rewrite app_nil_r.
  - intros Hall t1 t2 H1 H2. rewrite H1, H2, Hall. cbn [when].
    rewrite (listing_missing_section _ Hmissing). cbn.
    now rewrite app_nil_r.
Qed.

(** C10. An empty value is taken as no value. With [--prefix] given the
    empty string the run is the run of the script on the same arguments
    without [--prefix]: no prefix look-up is made; the same holds for
    [--suffix]; with [--path_to_dict] given the empty string the run is
    the one without [--path_to_dict] and opens [./rtl_dictionary.json].
    When no other operation is requested, a run with an empty [--prefix]
    or [--suffix] has no event besides those of the loader; on a
    dictionary, the events of a run with an empty [--prefix] are those of
    the loader, of the suffix look-up and of the listing if these are
    requested, and none for the prefix (likewise for an empty
    [--suffix]): it prints neither an explanation nor a not-found
    message. The argument count is tested on [sys.argv] before the
    switches are read, so these runs are compared once that test has
    passed. *)
Theorem C10_empty_value_as_absent (sys_argv : list string) (args : Namespace) :
  length sys_argv <> 1 ->
  parse_args (tl sys_argv) = Parsed args ->
  (prefix args = Some "" ->
     main sys_argv
     = run (mkNamespace None (suffix args) (list_all args) (path_to_dict args)))
  /\ (suffix args = Some "" ->
      main sys_argv
      = run (mkNamespace (prefix args) None (list_all args) (path_to_dict args)))
  /\ (path_to_dict args = Some "" ->
      main sys_argv
      = run (mkNamespace (prefix args) (suffix args) (list_all args) None)
      /\ opened (trace (main sys_argv)) = ["./rtl_dictionary.json"])
  /\ (prefix args = Some "" \/ prefix args = None ->
      suffix args = Some "" \/ suffix args = None ->
      list_all args = false ->
      trace (main sys_argv) = trace (readInDictionary (dictionaryPath args)))
  /\ (forall D P S,
        result (readInDictionary (dictionaryPath args)) = Ok D ->
        is_dictionary D P S ->
        (prefix args = Some "" ->
         trace (main sys_argv)
         = (trace (readInDictionary (dictionaryPath args))
            ++ (if truthy (suffix args)
                then [Printed (lookUpLine "suffix" (value (suffix args)) S)] else [])
            ++ (if list_all args then [Printed (listingText P S)] else []))%list)
        /\ (suffix args = Some "" ->
            trace (main sys_argv)
            = (trace (readInDictionary (dictionaryPath args))
               ++ (if truthy (prefix args)
                   then [Printed (lookUpLine "prefix" (value (prefix args)) P)] else [])
               ++ (if list_all args then [Printed (listingText P S)] else []))%list)).
Proof.
  intros Hlen Hparse. rewrite (main_parsed _ _ Hlen Hparse).
  split; [|split; [|split; [|split]]];
    [| | | |
     intros D P S Hload HD; rewrite (run_dictionary _ _ _ _ Hload HD);
     split; intros H; rewrite H; reflexivity].
  - intros H. unfold run, dictionaryPath. cbn [prefix suffix list_all path_to_dict].
    now rewrite H.
  - intros H. unfold run, dictionaryPath. cbn [prefix suffix list_all path_to_dict].
    now rewrite H.
  - intros H. split.
    + unfold run, dictionaryPath. cbn [prefix suffix list_all path_to_dict].
      now rewrite H.
    + rewrite run_opened. unfold dictionaryPath. now rewrite H.
  - intros Hp Hs Hall. unfold run. rewrite trace_bind.
    assert (Htp : truthy (prefix args) = false) by (destruct Hp as [->| ->]; reflexivity).
    assert (Hts : truthy (suffix args) = false) by (destruct Hs as [->| ->]; reflexivity).
    rewrite Htp, Hts, Hall.
    destruct (result (readInDictionary (dictionaryPath args))); cbn;
      now rewrite app_nil_r.
Qed.

End Properties.

(** ** The claims on the sample environment *)

(** C1, at a key of each section of the example of the specification. *)
Lemma C1_witness :
  In (Printed "pq_: Placement Queue")
     (trace (Sample.main ["check_rtl_meaning.py"; "--prefix"; "pq_"]))
  /\ In (Printed "_req: Request line")
        (trace (Sample.main ["check_rtl_meaning.py"; "--suffix"; "_req"])).
Proof.
  split.
  - apply (proj1 (C1_lookup_prints_explanation
                    Sample.parse_args Sample.fs Sample.json_load Sample.py_str
                    ["check_rtl_meaning.py"; "--prefix"; "pq_"]
                    (mkNamespace (Some "pq_") None false None) Sample.spec_dict
                    [("pq_", PyStr "Placement Queue")] [("_req", PyStr "Request line")]
                    "pq_" (PyStr "Placement Queue")
                    ltac:(discriminate) eq_refl eq_refl (conj eq_refl eq_refl)
                    ltac:(discriminate)));
      reflexivity.
  - apply (proj2 (C1_lookup_prints_explanation
                    Sample.parse_args Sample.fs Sample.json_load Sample.py_str
                    ["check_rtl_meaning.py"; "--suffix"; "_req"]
                    (mkNamespace None (Some "_req") false None) Sample.spec_dict
                    [("pq_", PyStr "Placement Queue")] [("_req", PyStr "Request line")]
                    "_req" (PyStr "Request line")
                    ltac:(discriminate) eq_refl eq_refl (conj eq_refl eq_refl)
                    ltac:(discriminate)));
      reflexivity.
Defined.

(** C1 as it is stated fails at the empty key: the file under [blank/]
    holds the key [""] in its Prefixes, the command line gives
    [--prefix ""], and the run prints the loader's message and no line
    for the key. *)
Lemma C1_counterexample :
  Sample.parse_args ["--prefix"; ""; "--path_to_dict"; "blank/"]
  = Parsed (mkNamespace (Some "") None false (Some "blank/"))
  /\ result (readInDictionary Sample.fs Sample.json_load "blank/rtl_dictionary.json")
     = Ok Sample.blank_dict
  /\ is_dictionary Sample.blank_dict [("", PyStr "no prefix")] [("", PyStr "no suffix")]
  /\ assoc "" [("", PyStr "no prefix")] = Some (PyStr "no prefix")
  /\ Sample.main ["check_rtl_meaning.py"; "--prefix"; ""; "--path_to_dict"; "blank/"]
     = (Exited 0%Z,
        [OpenFile "blank/rtl_dictionary.json";
         Printed (tab ++ "***Info: Trying to read in blank/rtl_dictionary.json")])
  /\ ~ In (Printed ("" ++ ": " ++ "no prefix"))
          (trace (Sample.main
                    ["check_rtl_meaning.py"; "--prefix"; ""; "--path_to_dict"; "blank/"])).
Proof.
  repeat split; try reflexivity.
  intros H. vm_compute in H. destruct H as [H|[H|[]]]; discriminate.
Qed.

(** C2, at [PQ_] and [ pq_], which differ from the key [pq_] by case and
    by a leading blank, and at a suffix that is no key. *)
Lemma C2_witness :
  In (Printed (tab ++ "***Info: The prefix PQ_ could not be found in rtl_dictionary.json"))
     (trace (Sample.main ["check_rtl_meaning.py"; "--prefix"; "PQ_"]))
  /\ In (Printed (tab ++ "***Info: The prefix  pq_ could not be found in rtl_dictionary.json"))
        (trace (Sample.main ["check_rtl_meaning.py"; "--prefix"; " pq_"]))
  /\ In (Printed (tab ++ "***Info: The suffix _ack could not be found in rtl_dictionary.json"))
        (trace (Sample.main ["check_rtl_meaning.py"; "--suffix"; "_ack"])).
Proof.
  split; [|split].
  - apply (proj1 (C2_lookup_prints_not_found
                    Sample.parse_args Sample.fs Sample.json_load Sample.py_str
                    ["check_rtl_meaning.py"; "--prefix"; "PQ_"]
                    (mkNamespace (Some "PQ_") None false None) Sample.spec_dict
                    [("pq_", PyStr "Placement Queue")] [("_req", PyStr "Request line")]
                    "PQ_"
                    ltac:(discriminate) eq_refl eq_refl (conj eq_refl eq_refl)
                    ltac:(discriminate)));
      [reflexivity | intros [H|[]]; discriminate].
  - apply (proj1 (C2_lookup_prints_not_found
                    Sample.parse_args Sample.fs Sample.json_load Sample.py_str
                    ["check_rtl_meaning.py"; "--prefix"; " pq_"]
                    (mkNamespace (Some " pq_") None false None) Sample.spec_dict
                    [("pq_", PyStr "Placement Queue")] [("_req", PyStr "Request line")]
                    " pq_"
                    ltac:(discriminate) eq_refl eq_refl (conj eq_refl eq_refl)
                    ltac:(discriminate)));
      [reflexivity | intros [H|[]]; discriminate].
  - apply (proj2 (C2_lookup_prints_not_found
                    Sample.parse_args Sample.fs Sample.json_load Sample.py_str
                    ["check_rtl_meaning.py"; "--suffix"; "_ack"]
                    (mkNamespace None (Some "_ack") false None) Sample.spec_dict
                    [("pq_", PyStr "Placement Queue")] [("_req", PyStr "Request line")]
                    "_ack"
                    ltac:(discriminate) eq_refl eq_refl (conj eq_refl eq_refl)
                    ltac:(discriminate)));
      [reflexivity | intros [H|[]]; discriminate].
Defined.

(** C2 as it is stated fails at the empty string: it is no key of the
    Prefixes of the example, the command line gives [--prefix ""], and
    the run prints the loader's message and no not-found message. *)
Lemma C2_counterexample :
  Sample.parse_args ["--prefix"; ""] = Parsed (mkNamespace (Some "") None false None)
  /\ result (readInDictionary Sample.fs Sample.json_load "./rtl_dictionary.json")
     = Ok Sample.spec_dict
  /\ is_dictionary Sample.spec_dict
       [("pq_", PyStr "Placement Queue")] [("_req", PyStr "Request line")]
  /\ ~ In "" (map fst [("pq_", PyStr "Placement Queue")])
  /\ Sample.main ["check_rtl_meaning.py"; "--prefix"; ""]
     = (Exited 0%Z,
        [OpenFile "./rtl_dictionary.json";
         Printed (tab ++ "***Info: Trying to read in ./rtl_dictionary.json")])
  /\ ~ In (Printed (tab ++ "***Info: The prefix  could not be found in rtl_dictionary.json"))
          (trace (Sample.main ["check_rtl_meaning.py"; "--prefix"; ""])).
Proof.
  repeat split; try reflexivity.
  - intros [H|[]]. discriminate.
  - intros H. vm_compute in H. destruct H as [H|[H|[]]]; discriminate.
Qed.

(** C3, on the dictionary under [full/], which has two entries in each
    section: the lines come in the order of the file, [pq_] before
    [aref_] and [_req] before [_ack]. *)
Lemma C3_witness :
  Sample.main ["check_rtl_meaning.py"; "--list_all"; "--path_to_dict"; "full/"]
  = (Exited 0%Z,
     [OpenFile "full/rtl_dictionary.json";
      Printed (tab ++ "***Info: Trying to read in full/rtl_dictionary.json");
      Printed "=======================================
            Prefixes
=======================================

pq_: Placement Queue
aref_: Auto-refresh logic

=======================================
            Suffixes
=======================================

_req: Request line
_ack: Acknowledge line
"]).
Proof.
  refine (proj1 (C3_list_all_prints_one_block
                   Sample.parse_args Sample.fs Sample.json_load Sample.py_str
                   ["check_rtl_meaning.py"; "--list_all"; "--path_to_dict"; "full/"]
                   (mkNamespace None None true (Some "full/")) Sample.full_dict
                   [("pq_", PyStr "Placement Queue"); ("aref_", PyStr "Auto-refresh logic")]
                   [("_req", PyStr "Request line"); ("_ack", PyStr "Acknowledge line")]
                   _ _ _ _ _ _ _));
    try reflexivity;
    try discriminate;
    try (split; reflexivity);
    unfold unique_keys; simpl;
    repeat (constructor; [simpl; intuition discriminate|]); constructor.
Defined.

(** C4, on the empty file under [empty/] and, for a whole run, on the
    truncated file under [broken/]. *)
Lemma C4_witness :
  readInDictionary Sample.fs Sample.json_load "empty/rtl_dictionary.json"
  = (Ok default_dictionary,
     [OpenFile "empty/rtl_dictionary.json";
      Printed (tab ++ "***Info: Trying to read in empty/rtl_dictionary.json");
      Printed (tab ++ "***Info: The file at empty/rtl_dictionary.json"
               ++ " is empty... creating the dictionary from scratch")])
  /\ Sample.main ["check_rtl_meaning.py"; "--prefix"; "aref_"; "--path_to_dict"; "broken/"]
     = (Exited 0%Z,
        [OpenFile "broken/rtl_dictionary.json";
         Printed (tab ++ "***Info: Trying to read in broken/rtl_dictionary.json");
         Printed (tab ++ "***Info: The file at broken/rtl_dictionary.json"
                  ++ " is empty... creating the dictionary from scratch");
         Printed "aref_: Indicates that the signal is to do with the auto-refresh logic."]).
Proof.
  split.
  - apply (proj1 (C4_unparsable_file_gives_default
                    Sample.parse_args Sample.fs Sample.json_load Sample.py_str
                    "empty/rtl_dictionary.json" "" eq_refl eq_refl (or_introl eq_refl))).
  - destruct (proj2 (C4_unparsable_file_gives_default
                       Sample.parse_args Sample.fs Sample.json_load Sample.py_str
                       "broken/rtl_dictionary.json" "{" eq_refl eq_refl (or_intror eq_refl)))
      as [P [S [[HP HS] [_ [_ [_ [_ Hrun]]]]]]].
    injection HP as <-. injection HS as <-.
    apply (Hrun ["check_rtl_meaning.py"; "--prefix"; "aref_"; "--path_to_dict"; "broken/"]
                (mkNamespace (Some "aref_") None false (Some "broken/"))
                ltac:(discriminate) eq_refl eq_refl).
Defined.

(** C5, with a directory that holds no dictionary. *)
Lemma C5_witness :
  Sample.main ["check_rtl_meaning.py"; "--list_all"; "--path_to_dict"; "nowhere/"]
  = (Raised (FileNotFoundError "nowhere/rtl_dictionary.json"),
     [OpenFile "nowhere/rtl_dictionary.json"]).
Proof.
  apply (C5_missing_file_aborts
           Sample.parse_args Sample.fs Sample.json_load Sample.py_str
           ["check_rtl_meaning.py"; "--list_all"; "--path_to_dict"; "nowhere/"]
           (mkNamespace None None true (Some "nowhere/"))
           ltac:(discriminate) eq_refl eq_refl).
Defined.

(** C7, with a directory given and with none. *)
Lemma C7_witness :
  opened (trace (Sample.main
                   ["check_rtl_meaning.py"; "--prefix"; "pq_"; "--path_to_dict"; "blank/"]))
  = ["blank/rtl_dictionary.json"]
  /\ opened (trace (Sample.main ["check_rtl_meaning.py"; "--prefix"; "pq_"]))
     = ["./rtl_dictionary.json"].
Proof.
  split.
  - apply (proj1 (C7_dictionary_path
                    Sample.parse_args Sample.fs Sample.json_load Sample.py_str
                    ["check_rtl_meaning.py"; "--prefix"; "pq_"; "--path_to_dict"; "blank/"]
                    (mkNamespace (Some "pq_") None false (Some "blank/"))
                    ltac:(discriminate) eq_refl)
                 "blank/" eq_refl ltac:(discriminate)).
  - apply (proj2 (C7_dictionary_path
                    Sample.parse_args Sample.fs Sample.json_load Sample.py_str
                    ["check_rtl_meaning.py"; "--prefix"; "pq_"]
                    (mkNamespace (Some "pq_") None false None)
                    ltac:(discriminate) eq_refl)
                 (or_introl eq_refl)).
Defined.

(** C7 as it is stated fails at the empty value: the value followed by
    the file name is [rtl_dictionary.json], and the script opens
    [./rtl_dictionary.json]. *)
Lemma C7_counterexample :
  Sample.parse_args ["--list_all"; "--path_to_dict"; ""]
  = Parsed (mkNamespace None None true (Some ""))
  /\ opened (trace (Sample.main
                      ["check_rtl_meaning.py"; "--list_all"; "--path_to_dict"; ""]))
     = ["./rtl_dictionary.json"]
  /\ "./rtl_dictionary.json" <> "" ++ "rtl_dictionary.json".
Proof. repeat split. discriminate. Qed.



(** C9, on the object under [suffixes_only/], which has no [Prefixes],
    and the one under [prefixes_only/], which has no [Suffixes]. *)
Lemma C9_witness :
  Sample.main ["check_rtl_meaning.py"; "--prefix"; "pq_"; "--path_to_dict"; "suffixes_only/"]
  = (Raised (KeyError "Prefixes"),
     [OpenFile "suffixes_only/rtl_dictionary.json";
      Printed (tab ++ "***Info: Trying to read in suffixes_only/rtl_dictionary.json")])
  /\ Sample.main ["check_rtl_meaning.py"; "--prefix"; "pq_"; "--list_all";
                  "--path_to_dict"; "prefixes_only/"]
     = (Raised (KeyError "Suffixes"),
        [OpenFile "prefixes_only/rtl_dictionary.json";
         Printed (tab ++ "***Info: Trying to read in prefixes_only/rtl_dictionary.json");
         Printed "pq_: Placement Queue"]).
Proof.
  split.
  - apply (proj1 (proj2 (C9_missing_section_key_error
                           Sample.parse_args Sample.fs Sample.json_load Sample.py_str
                           "suffixes_only/rtl_dictionary.json" Sample.suffixes_only_text
                           [("Suffixes", PyDict [("_req", PyStr "Request line")])]
                           eq_refl eq_refl (or_introl eq_refl))
                        ["check_rtl_meaning.py"; "--prefix"; "pq_";
                         "--path_to_dict"; "suffixes_only/"]
                        (mkNamespace (Some "pq_") None false (Some "suffixes_only/"))
                        ltac:(discriminate) eq_refl eq_refl)
                 eq_refl eq_refl).
  - apply (proj2 (proj2 (proj2 (C9_missing_section_key_error
                           Sample.parse_args Sample.fs Sample.json_load Sample.py_str
                           "prefixes_only/rtl_dictionary.json" Sample.prefixes_only_text
                           [("Prefixes", PyDict [("pq_", PyStr "Placement Queue")])]
                           eq_refl eq_refl (or_intror eq_refl))
                        ["check_rtl_meaning.py"; "--prefix"; "pq_"; "--list_all";
                         "--path_to_dict"; "prefixes_only/"]
                        (mkNamespace (Some "pq_") None true (Some "prefixes_only/"))
                        ltac:(discriminate) eq_refl eq_refl))
                 eq_refl [Printed "pq_: Placement Queue"] [] eq_refl eq_refl).
Defined.

(** C10, with each of the three switches given the empty string. *)
Lemma C10_witness :
  Sample.main ["check_rtl_meaning.py"; "--prefix"; ""; "--suffix"; "_req"]
  = run Sample.fs Sample.json_load Sample.py_str (mkNamespace None (Some "_req") false None)
  /\ trace (Sample.main ["check_rtl_meaning.py"; "--suffix"; ""])
     = [OpenFile "./rtl_dictionary.json";
        Printed (tab ++ "***Info: Trying to read in ./rtl_dictionary.json")]
  /\ opened (trace (Sample.main ["check_rtl_meaning.py"; "--list_all"; "--path_to_dict"; ""]))
     = ["./rtl_dictionary.json"].
Proof.
  split; [|split].
  - apply (proj1 (C10_empty_value_as_absent
                    Sample.parse_args Sample.fs Sample.json_load Sample.py_str
                    ["check_rtl_meaning.py"; "--prefix"; ""; "--suffix"; "_req"]
                    (mkNamespace (Some "") (Some "_req") false None)
                    ltac:(discriminate) eq_refl)
                 eq_refl).
  - apply (proj1 (proj2 (proj2 (proj2 (C10_empty_value_as_absent
                    Sample.parse_args Sample.fs Sample.json_load Sample.py_str
                    ["check_rtl_meaning.py"; "--suffix"; ""]
                    (mkNamespace None (Some "") false None)
                    ltac:(discriminate) eq_refl))))
                 (or_intror eq_refl) (or_introl eq_refl) eq_refl).
  - apply (proj2 (proj1 (proj2 (proj2 (C10_empty_value_as_absent
                    Sample.parse_args Sample.fs Sample.json_load Sample.py_str
                    ["check_rtl_meaning.py"; "--list_all"; "--path_to_dict"; ""]
                    (mkNamespace None None true (Some ""))
                    ltac:(discriminate) eq_refl)))
                 eq_refl)).
Defined.

(** ** Files that are not dictionaries *)

From Stdlib Require DecimalString.

Module Odd.

(** A JSON array at top level. *)
Definition array_text : string := "[]".
Definition array_value : pyobj := PyList [].

(** The Prefixes given as an array of names. *)
Definition listed_text : string :=
  "{" ++ Sample.quoted "Prefixes" ++ ": [" ++ Sample.quoted "pq_" ++ ", "
  ++ Sample.quoted "aref_" ++ "], " ++ Sample.quoted "Suffixes" ++ ": {"
  ++ Sample.quoted "_req" ++ ": " ++ Sample.quoted "Request line" ++ "}}".
Definition listed_value : pyobj :=
  PyDict [ ("Prefixes", PyList [PyStr "pq_"; PyStr "aref_"]);
           ("Suffixes", PyDict [("_req", PyStr "Request line")]) ].

(** The Prefixes given as one string of names. *)
Definition texted_text : string :=
  "{" ++ Sample.quoted "Prefixes" ++ ": " ++ Sample.quoted "pq_ aref_ mmu_" ++ ", "
  ++ Sample.quoted "Suffixes" ++ ": {"
  ++ Sample.quoted "_req" ++ ": " ++ Sample.quoted "Request line" ++ "}}".
Definition texted_value : pyobj :=
  PyDict [ ("Prefixes", PyStr "pq_ aref_ mmu_");
           ("Suffixes", PyDict [("_req", PyStr "Request line")]) ].

(** The Prefixes a number, the Suffixes [null]. *)
Definition scalar_text : string :=
  "{" ++ Sample.quoted "Prefixes" ++ ": 5, " ++ Sample.quoted "Suffixes" ++ ": null}".
Definition scalar_value : pyobj :=
  PyDict [ ("Prefixes", PyInt 5); ("Suffixes", PyNone) ].

(** A dictionary with explanations that are not strings. *)
Definition typed_text : string :=
  "{" ++ Sample.quoted "Prefixes" ++ ": {" ++ Sample.quoted "pq_" ++ ": 7, "
  ++ Sample.quoted "n_" ++ ": null}, " ++ Sample.quoted "Suffixes" ++ ": {"
  ++ Sample.quoted "_req" ++ ": " ++ Sample.quoted "Request line" ++ "}}".
Definition typed_value : pyobj :=
  PyDict [ ("Prefixes", PyDict [("pq_", PyInt 7); ("n_", PyNone)]);
           ("Suffixes", PyDict [("_req", PyStr "Request line")]) ].

(** The Prefixes a mapping, the Suffixes an array of names. *)
Definition half_text : string :=
  "{" ++ Sample.quoted "Prefixes" ++ ": {" ++ Sample.quoted "pq_" ++ ": "
  ++ Sample.quoted "Placement Queue" ++ "}, " ++ Sample.quoted "Suffixes" ++ ": ["
  ++ Sample.quoted "_req" ++ "]}".
Definition half_value : pyobj :=
  PyDict [ ("Prefixes", PyDict [("pq_", PyStr "Placement Queue")]);
           ("Suffixes", PyList [PyStr "_req"]) ].

(** [json.load] on these texts. *)
Definition json_load (content : string) : option pyobj :=
  if content =? half_text then Some half_value
  else if content =? array_text then Some array_value
  else if content =? listed_text then Some listed_value
  else if content =? texted_text then Some texted_value
  else if content =? scalar_text then Some scalar_value
  else if content =? typed_text then Some typed_value
  else None.

(** The files, each in a directory of its own. *)
Definition fs (path : string) : open_result :=
  if path =? "half/rtl_dictionary.json" then File half_text
  else if path =? "array/rtl_dictionary.json" then File array_text
  else if path =? "listed/rtl_dictionary.json" then File listed_text
  else if path =? "texted/rtl_dictionary.json" then File texted_text
  else if path =? "scalar/rtl_dictionary.json" then File scalar_text
  else if path =? "typed/rtl_dictionary.json" then File typed_text
  else NoFile NoSuchFile.

(** [str] on [None], the booleans and the integers; the files above hold
    no other value that is not a string. *)
Definition py_str (v : pyobj) : string :=
  match v with
  | PyNone => "None"
  | PyBool true => "True"
  | PyBool false => "False"
  | PyInt n => DecimalString.NilZero.string_of_int (Z.to_int n)
  | _ => ""
  end.

Definition main : list string -> M unit :=
  main Sample.parse_args fs json_load py_str.

End Odd.

(** ** Strings within strings, strings within lists *)

Lemma prefix_append (k h : string) :
  String.prefix k h = true <-> exists b, h = k ++ b.
Proof.
  revert h. induction k as [|c k IH]; intros h.
  - split; [intros _; now exists h | intros _; now destruct h].
  - destruct h as [|d h]; simpl.
    + split; [discriminate | intros [b Hb]; simpl in Hb; discriminate].
    + destruct (ascii_dec c d) as [->|Hne].
      * rewrite IH. split; intros [b Hb]; exists b;
          [now rewrite Hb | simpl in Hb; now injection Hb].
      * split; [discriminate|].
        intros [b Hb]. simpl in Hb. injection Hb as Hc _. now symmetry in Hc.
Qed.

(** [occurs_in] is the substring test. *)
Lemma occurs_in_spec (k s : string) :
  occurs_in k s = true <-> exists a b, s = a ++ k ++ b.
Proof.
  induction s as [|c s IH]; cbn [occurs_in]; rewrite orb_true_iff, prefix_append.
  - split.
    + intros [[b Hb]|H]; [now exists "", b | discriminate].
    + intros [a [b H]]. left. destruct a; [now exists b | discriminate].
  - rewrite IH. split.
    + intros [[b Hb]|[a [b Hab]]]; [now exists "", b|].
      exists (String c a), b. simpl. now rewrite Hab.
    + intros [a [b H]]. destruct a as [|c' a].
      * left. now exists b.
      * right. exists a, b. simpl in H. now injection H.
Qed.

Lemma existsb_is_str (k : string) (elems : list pyobj) :
  existsb (is_str k) elems = true <-> In (PyStr k) elems.
Proof.
  rewrite existsb_exists. split.
  - intros [x [Hin Hx]]. destruct x; try discriminate.
    simpl in Hx. apply String.eqb_eq in Hx. now subst.
  - intros Hin. exists (PyStr k). split; [assumption | apply String.eqb_refl].
Qed.

(** The values that are neither a string nor a container. *)
Definition is_scalar (v : pyobj) : bool :=
  match v with
  | PyNone | PyBool _ | PyInt _ | PyFloat _ => true
  | PyStr _ | PyList _ | PyDict _ => false
  end.


Lemma joinLines_app (l1 l2 : list string) :
  joinLines (l1 ++ l2) = joinLines l1 ++ joinLines l2.
Proof.
  induction l1 as [|x l1 IH]; simpl; [reflexivity|].
  now rewrite IH, append_assoc.
Qed.

Section Further.

Variable parse_args : list string -> parsed.
Variable fs : string -> open_result.
Variable json_load : string -> option pyobj.
Variable py_str : pyobj -> string.

Local Abbreviation readInDictionary := (readInDictionary fs json_load).
Local Abbreviation str := (str py_str).
Local Abbreviation lookUp := (lookUp py_str).
Local Abbreviation lookUpLine := (lookUpLine py_str).
Local Abbreviation entryLine := (entryLine py_str).
Local Abbreviation listing := (listing py_str).
Local Abbreviation listingText := (listingText py_str).
Local Abbreviation step2 := (step2 py_str).
Local Abbreviation run := (run fs json_load py_str).
Local Abbreviation main := (main parse_args fs json_load py_str).

(** *** A run on the value loaded *)

Lemma main_loaded (sys_argv : list string) (args : Namespace) (D : pyobj) :
  length sys_argv <> 1 ->
  parse_args (tl sys_argv) = Parsed args ->
  result (readInDictionary (dictionaryPath args)) = Ok D ->
  main sys_argv
  = (result (step2 (truthy (prefix args)) (value (prefix args))
                   (truthy (suffix args)) (value (suffix args))
                   (list_all args) D),
     (trace (readInDictionary (dictionaryPath args))
      ++ trace (step2 (truthy (prefix args)) (value (prefix args))
                      (truthy (suffix args)) (value (suffix args))
                      (list_all args) D))%list).
Proof.
  intros Hlen Hparse Hload.
  rewrite main_parsed with (args := args) by assumption.
  apply run_loaded. rewrite <- Hload. apply surjective_run.
Qed.

Lemma step2_first_raises (lookUpSuffix printOutDictionary : bool)
    (prefix suffix : string) (D : pyobj) (e : exn) (t : list event) :
  lookUp D "Prefixes" "prefix" prefix = (Raised e, t) ->
  step2 true prefix lookUpSuffix suffix printOutDictionary D = (Raised e, t).
Proof. intros H. unfold step2. cbn [when]. now rewrite H. Qed.

Lemma step2_second_raises (lookUpPrefix printOutDictionary : bool)
    (prefix suffix : string) (D : pyobj) (e : exn) (t1 t : list event) :
  when lookUpPrefix (lookUp D "Prefixes" "prefix" prefix) = (Ok tt, t1) ->
  lookUp D "Suffixes" "suffix" suffix = (Raised e, t) ->
  step2 lookUpPrefix prefix true suffix printOutDictionary D = (Raised e, (t1 ++ t)%list).
Proof. intros H1 H2. unfold step2. rewrite H1. cbn [when]. now rewrite H2. Qed.

Lemma step2_third_raises (lookUpPrefix lookUpSuffix : bool)
    (prefix suffix : string) (D : pyobj) (e : exn) (t1 t2 t : list event) :
  when lookUpPrefix (lookUp D "Prefixes" "prefix" prefix) = (Ok tt, t1) ->
  when lookUpSuffix (lookUp D "Suffixes" "suffix" suffix) = (Ok tt, t2) ->
  listing D = (Raised e, t) ->
  step2 lookUpPrefix prefix lookUpSuffix suffix true D
  = (Raised e, (t1 ++ t2 ++ t)%list).
Proof. intros H1 H2 H3. unfold step2. rewrite H1, H2. cbn [when]. now rewrite H3. Qed.

(** *** The operations on values of each shape *)

Lemma lookUp_not_object (D : pyobj) (section kind key : string) :
  (forall entries, D <> PyDict entries) ->
  lookUp D section kind key = (Raised TypeError, []).
Proof.
  intros HD. destruct D; try reflexivity. now contradiction (HD entries).
Qed.

Lemma listing_not_object (D : pyobj) :
  (forall entries, D <> PyDict entries) ->
  listing D = (Raised TypeError, []).
Proof.
  intros HD. destruct D; try reflexivity. now contradiction (HD entries).
Qed.

Lemma lookUp_scalar_section (D : pyobj) (section kind key : string) (v : pyobj) :
  getitem D section = inr v ->
  is_scalar v = true ->
  lookUp D section kind key = (Raised TypeError, []).
Proof.
  intros HD Hv. unfold lookUp. rewrite HD. cbn [lift]. rewrite bind_ret_l.
  destruct v; try discriminate; reflexivity.
Qed.

Lemma lookUp_list_section (D : pyobj) (section kind key : string) (elems : list pyobj) :
  getitem D section = inr (PyList elems) ->
  lookUp D section kind key
  = if existsb (is_str key) elems
    then (Raised TypeError, [])
    else (Ok tt, [Printed (notFoundText kind key)]).
Proof.
  intros HD. unfold lookUp. rewrite HD. cbn [lift]. rewrite bind_ret_l.
  cbn [lift contains]. rewrite bind_ret_l.
  destruct (existsb (is_str key) elems); [reflexivity|].
  now rewrite format_prefixSuffixNotFoundMsg.
Qed.

Lemma lookUp_str_section (D : pyobj) (section kind key s : string) :
  getitem D section = inr (PyStr s) ->
  lookUp D section kind key
  = if occurs_in key s
    then (Raised TypeError, [])
    else (Ok tt, [Printed (notFoundText kind key)]).
Proof.
  intros HD. unfold lookUp. rewrite HD. cbn [lift]. rewrite bind_ret_l.
  cbn [lift contains]. rewrite bind_ret_l.
  destruct (occurs_in key s); [reflexivity|].
  now rewrite format_prefixSuffixNotFoundMsg.
Qed.

Lemma listing_not_mappings (D p s : pyobj) :
  getitem D "Prefixes" = inr p ->
  getitem D "Suffixes" = inr s ->
  (forall P, p <> PyDict P) \/ (forall S, s <> PyDict S) ->
  listing D = (Raised AttributeError, []).
Proof.
  intros HP HS H. unfold listing. rewrite HP, HS.
  cbn [lift]. rewrite !bind_ret_l.
  destruct p as [| | | | | |P]; try reflexivity.
  cbn [lift items]. rewrite bind_ret_l.
  destruct s as [| | | | | |S]; try reflexivity.
  destruct H as [H|H]; [now contradiction (H P) | now contradiction (H S)].
Qed.

(** A look-up that raises has printed nothing. *)
Lemma lookUp_raises_silently (D : pyobj) (section kind key : string) (e : exn) :
  result (lookUp D section kind key) = Raised e ->
  lookUp D section kind key = (Raised e, []).
Proof.
  destruct (lookUp_cases py_str D section kind key) as [[e' H]|[[entries [_ H]]|[_ H]]];
    rewrite H; cbn [result fst]; intros He; now inversion He.
Qed.







(** ** Further properties of the script *)


(** X2. The files a run opens. Without arguments, and when [argparse]
    leaves the script (help, usage error), no file is opened; once the
    arguments are parsed the script calls [open] exactly once, on the
    path computed from [--path_to_dict], whatever else is requested and
    however the run ends. *)
Theorem X2_files_opened (sys_argv : list string) :
  opened (trace (main sys_argv))
  = if Nat.eqb (length sys_argv) 1 then []
    else match parse_args (tl sys_argv) with
         | Parsed args => [dictionaryPath args]
         | ParserExit _ => []
         end.
Proof.
  destruct (Nat.eqb_spec (length sys_argv) 1) as [Hlen|Hlen].
  { destruct sys_argv as [|script [|]]; try discriminate. reflexivity. }
  destruct (parse_args (tl sys_argv)) as [args|status] eqn:Hparse.
  - rewrite main_parsed with (args := args) by assumption. apply run_opened.
  - now rewrite (main_parser_exit _ fs json_load py_str _ _ Hlen Hparse).
Qed.

(** X3. When the file exists the loader always returns a value, and it
    prints the message that calls the file empty exactly when
    [json.load] raised, whatever the content of the file: a file that is
    not empty and is no JSON is reported as empty. *)
Theorem X3_file_empty_message (path content : string) :
  fs path = File content ->
  (exists D, result (readInDictionary path) = Ok D)
  /\ (In (Printed (infoTag ++ "The file at " ++ path
                   ++ " is empty... creating the dictionary from scratch"))
         (trace (readInDictionary path))
      <-> json_load content = None).
Proof.
  intros Hfs. destruct (json_load content) as [D|] eqn:Hjs.
  - rewrite (readInDictionary_parsed _ _ _ _ _ Hfs Hjs). split; [now exists D|].
    split; [|discriminate].
    intros [H|[H|[]]]; [discriminate|].
    apply Printed_inj in H. cbv in H. discriminate.
  - rewrite (readInDictionary_unparsed _ _ _ _ Hfs Hjs).
    split; [now exists default_dictionary|].
    split; [reflexivity|]. intros _. right. right. now left.
Qed.

(** X4. A file whose JSON is no object at top level (an array, a string,
    a number, [true], [false], [null]) is loaded without complaint; the
    first operation requested then ends the run with [TypeError], and
    the loader's message is all that was printed. *)
Theorem X4_top_level_not_object (sys_argv : list string) (args : Namespace) (D : pyobj) :
  length sys_argv <> 1 ->
  parse_args (tl sys_argv) = Parsed args ->
  result (readInDictionary (dictionaryPath args)) = Ok D ->
  (forall entries, D <> PyDict entries) ->
  truthy (prefix args) = true \/ truthy (suffix args) = true \/ list_all args = true ->
  main sys_argv = (Raised TypeError, trace (readInDictionary (dictionaryPath args))).
Proof.
  intros Hlen Hparse Hload HD Hop.
  rewrite (main_loaded _ _ _ Hlen Hparse Hload). unfold step2.
  rewrite !lookUp_not_object, listing_not_object by assumption.
  destruct (truthy (prefix args)), (truthy (suffix args)), (list_all args);
    cbn; rewrite ?app_nil_r; try reflexivity.
  destruct Hop as [H|[H|H]]; discriminate.
Qed.

(** X5. A section given as a JSON array of names. The look-up tests
    membership, so a name that is not in the array gets the not-found
    message; a name that is in the array passes the test and the
    indexing that follows raises [TypeError]: for the prefix, the run
    ends there with the loader's message alone. *)
Theorem X5_section_is_a_list (D : pyobj) (section kind key : string)
    (elems : list pyobj) :
  getitem D section = inr (PyList elems) ->
  (In (PyStr key) elems -> lookUp D section kind key = (Raised TypeError, []))
  /\ (~ In (PyStr key) elems ->
      lookUp D section kind key
      = (Ok tt, [Printed (infoTag ++ "The " ++ kind ++ " " ++ key
                          ++ " could not be found in rtl_dictionary.json")]))
  /\ (forall sys_argv args,
        length sys_argv <> 1 ->
        parse_args (tl sys_argv) = Parsed args ->
        result (readInDictionary (dictionaryPath args)) = Ok D ->
        section = "Prefixes" ->
        prefix args = Some key -> key <> "" ->
        In (PyStr key) elems ->
        main sys_argv = (Raised TypeError, trace (readInDictionary (dictionaryPath args)))).
Proof.
  intros HD. pose proof (lookUp_list_section D section kind key elems HD) as Hl.
  assert (Hin : In (PyStr key) elems ->
                lookUp D section kind key = (Raised TypeError, [])).
  { intros H. apply existsb_is_str in H. now rewrite H in Hl. }
  split; [exact Hin|]. split.
  - intros Hnot. destruct (existsb (is_str key) elems) eqn:He; [|exact Hl].
    apply existsb_is_str in He. contradiction.
  - intros sys_argv args Hlen Hparse Hload -> Hp Hne Hk.
    rewrite (main_loaded _ _ _ Hlen Hparse Hload), Hp, (truthy_Some _ Hne). cbn [value].
    pose proof (lookUp_list_section D "Prefixes" "prefix" key elems HD) as Hraise.
    apply existsb_is_str in Hk. rewrite Hk in Hraise.
    rewrite (step2_first_raises _ _ _ _ _ _ _ Hraise). cbn.
    now rewrite app_nil_r.
Qed.

(** X6. A section given as one JSON string. The look-up tests whether
    the name occurs in that string: a name that occurs anywhere in it
    passes the test and the indexing raises [TypeError]; a name that
    does not occur gets the not-found message. *)
Theorem X6_section_is_a_string (D : pyobj) (section kind key s : string) :
  getitem D section = inr (PyStr s) ->
  ((exists a b, s = a ++ key ++ b) ->
   lookUp D section kind key = (Raised TypeError, []))
  /\ (~ (exists a b, s = a ++ key ++ b) ->
      lookUp D section kind key
      = (Ok tt, [Printed (infoTag ++ "The " ++ kind ++ " " ++ key
                          ++ " could not be found in rtl_dictionary.json")])).
Proof.
  intros HD. pose proof (lookUp_str_section D section kind key s HD) as Hl.
  split.
  - intros H. apply occurs_in_spec in H. now rewrite H in Hl.
  - intros Hnot. destruct (occurs_in key s) eqn:He; [|exact Hl].
    apply occurs_in_spec in He. contradiction.
Qed.

(** X7. A section that is a number, [true], [false] or [null]: every
    requested look-up in it raises [TypeError] before anything is
    printed, whatever the name; for the prefix, the run ends there with
    the loader's message alone. *)
Theorem X7_section_is_a_scalar (D v : pyobj) (section kind : string) :
  getitem D section = inr v ->
  is_scalar v = true ->
  (forall key, lookUp D section kind key = (Raised TypeError, []))
  /\ (forall sys_argv args,
        length sys_argv <> 1 ->
        parse_args (tl sys_argv) = Parsed args ->
        result (readInDictionary (dictionaryPath args)) = Ok D ->
        section = "Prefixes" ->
        truthy (prefix args) = true ->
        main sys_argv = (Raised TypeError, trace (readInDictionary (dictionaryPath args)))).
Proof.
  intros HD Hv. split.
  - intros key. now apply lookUp_scalar_section with (v := v).
  - intros sys_argv args Hlen Hparse Hload -> Hp.
    rewrite (main_loaded _ _ _ Hlen Hparse Hload), Hp.
    rewrite (step2_first_raises _ _ _ _ _ _ _
               (lookUp_scalar_section _ _ "prefix" (value (prefix args)) _ HD Hv)).
    cbn. now rewrite app_nil_r.
Qed.

(** X8. The listing needs both sections to be mappings. With both keys
    present and either value no JSON object, the listing raises
    [AttributeError] and prints nothing, not even the lines of a
    Prefixes section that is a mapping: what the run printed is the
    loader's message and the lines of the look-ups before. *)
Theorem X8_listing_needs_two_mappings (sys_argv : list string) (args : Namespace)
    (D p s : pyobj) (t1 t2 : list event) :
  length sys_argv <> 1 ->
  parse_args (tl sys_argv) = Parsed args ->
  result (readInDictionary (dictionaryPath args)) = Ok D ->
  list_all args = true ->
  getitem D "Prefixes" = inr p ->
  getitem D "Suffixes" = inr s ->
  (forall P, p <> PyDict P) \/ (forall S, s <> PyDict S) ->
  when (truthy (prefix args)) (lookUp D "Prefixes" "prefix" (value (prefix args)))
  = (Ok tt, t1) ->
  when (truthy (suffix args)) (lookUp D "Suffixes" "suffix" (value (suffix args)))
  = (Ok tt, t2) ->
  main sys_argv
  = (Raised AttributeError,
     (trace (readInDictionary (dictionaryPath args)) ++ t1 ++ t2)%list).
Proof.
  intros Hlen Hparse Hload Hall HP HS Hshape H1 H2.
  rewrite (main_loaded _ _ _ Hlen Hparse Hload), Hall.
  rewrite (step2_third_raises _ _ _ _ _ _ _ _ _ H1 H2 (listing_not_mappings _ _ _ HP HS Hshape)).
  cbn. now rewrite app_nil_r.
Qed.


(** X10. The look-up and the listing agree. When a run looks a prefix
    up, finds it, and lists the dictionary, the line it printed for the
    prefix stands, followed by a newline, among the lines of the
    Prefixes part of the listing. *)
Theorem X10_listing_holds_looked_up_line (sys_argv : list string) (args : Namespace)
    (D : pyobj) (P S : list (string * pyobj)) (k : string) (v : pyobj) :
  length sys_argv <> 1 ->
  parse_args (tl sys_argv) = Parsed args ->
  result (readInDictionary (dictionaryPath args)) = Ok D ->
  is_dictionary D P S ->
  prefix args = Some k -> k <> "" ->
  list_all args = true ->
  assoc k P = Some v ->
  exists before after,
    joinLines (map entryLine P) = before ++ (k ++ ": " ++ str v) ++ nl ++ after
    /\ main sys_argv
       = (Exited 0%Z,
          (trace (readInDictionary (dictionaryPath args))
           ++ [Printed (k ++ ": " ++ str v)%string]
           ++ (if truthy (suffix args)
               then [Printed (lookUpLine "suffix" (value (suffix args)) S)] else [])
           ++ [Printed (prefixSectionHeader
                        ++ (before ++ (k ++ ": " ++ str v) ++ nl ++ after)
                        ++ suffixSectionHeader ++ joinLines (map entryLine S))%string])%list).
Proof.
  intros Hlen Hparse Hload HD Hp Hne Hall Hv.
  destruct (in_split _ _ (assoc_Some_In _ _ _ Hv)) as [l1 [l2 HP]].
  exists (joinLines (map entryLine l1)), (joinLines (map entryLine l2)).
  assert (Hjoin : joinLines (map entryLine P)
                  = joinLines (map entryLine l1) ++ (k ++ ": " ++ str v) ++ nl
                    ++ joinLines (map entryLine l2)).
  { rewrite HP, map_app, joinLines_app. cbn [map joinLines fold_right].
    change (entryLine (k, v)) with (k ++ ": " ++ str v ++ nl).
    now rewrite !append_assoc. }
  split; [exact Hjoin|].
  rewrite (main_dictionary _ _ _ _ _ _ _ _ _ Hlen Hparse Hload HD).
  rewrite Hp, Hall, (truthy_Some _ Hne). cbn [value].
  change (lookUpLine "prefix" k P)
    with (match assoc k P with
          | Some v => k ++ ": " ++ str v
          | None => notFoundText "prefix" k
          end).
  rewrite Hv.
  change (listingText P S)
    with (prefixSectionHeader ++ joinLines (map entryLine P)
          ++ suffixSectionHeader ++ joinLines (map entryLine S)).
  now rewrite Hjoin.
Qed.

(** X11. A section is examined only by the operation that uses it. A
    prefix look-up alone needs the Prefixes section to be a mapping and
    nothing of the Suffixes (missing, or of any shape), and a suffix
    look-up alone needs nothing of the Prefixes: the run prints its one
    line and exits with status 0. *)
Theorem X11_sections_checked_on_use (sys_argv : list string) (args : Namespace)
    (D : pyobj) (entries : list (string * pyobj)) (k : string) :
  length sys_argv <> 1 ->
  parse_args (tl sys_argv) = Parsed args ->
  result (readInDictionary (dictionaryPath args)) = Ok D ->
  list_all args = false ->
  k <> "" ->
  (prefix args = Some k -> truthy (suffix args) = false ->
   getitem D "Prefixes" = inr (PyDict entries) ->
   main sys_argv
   = (Exited 0%Z,
      (trace (readInDictionary (dictionaryPath args))
       ++ [Printed (lookUpLine "prefix" k entries)])%list))
  /\ (suffix args = Some k -> truthy (prefix args) = false ->
      getitem D "Suffixes" = inr (PyDict entries) ->
      main sys_argv
      = (Exited 0%Z,
         (trace (readInDictionary (dictionaryPath args))
          ++ [Printed (lookUpLine "suffix" k entries)])%list)).
Proof.
  intros Hlen Hparse Hload Hall Hne.
  rewrite (main_loaded _ _ _ Hlen Hparse Hload), Hall.
  split; intros Hk Hother HD; rewrite Hk, Hother, (truthy_Some _ Hne); cbn [value].
  - rewrite (step2_completes py_str true false false k _ D
               [Printed (lookUpLine "prefix" k entries)] [] []); trivial.
    now apply lookUp_dictionary.
  - rewrite (step2_completes py_str false true false _ k D
               [] [Printed (lookUpLine "suffix" k entries)] []); trivial.
    now apply lookUp_dictionary.
Qed.

(** X12. A look-up that raises has printed nothing, and it ends the
    run: the operations requested after it on the same command line are
    not made. When the prefix look-up raises, the run has printed the
    loader's message alone; when the suffix look-up raises after a
    prefix look-up that came back, the run has printed the prefix line
    and no listing. *)
Theorem X12_failed_lookup_ends_run (sys_argv : list string) (args : Namespace)
    (D : pyobj) (e : exn) :
  length sys_argv <> 1 ->
  parse_args (tl sys_argv) = Parsed args ->
  result (readInDictionary (dictionaryPath args)) = Ok D ->
  (truthy (prefix args) = true ->
   result (lookUp D "Prefixes" "prefix" (value (prefix args))) = Raised e ->
   main sys_argv = (Raised e, trace (readInDictionary (dictionaryPath args))))
  /\ (forall t1,
        when (truthy (prefix args)) (lookUp D "Prefixes" "prefix" (value (prefix args)))
        = (Ok tt, t1) ->
        truthy (suffix args) = true ->
        result (lookUp D "Suffixes" "suffix" (value (suffix args))) = Raised e ->
        main sys_argv
        = (Raised e, (trace (readInDictionary (dictionaryPath args)) ++ t1)%list)).
Proof.
  intros Hlen Hparse Hload. rewrite (main_loaded _ _ _ Hlen Hparse Hload). split.
  - intros Hp He. rewrite Hp.
    rewrite (step2_first_raises _ _ _ _ _ _ _ (lookUp_raises_silently _ _ _ _ _ He)).
    cbn. now rewrite app_nil_r.
  - intros t1 H1 Hs He. rewrite Hs.
    rewrite (step2_second_raises _ _ _ _ _ _ _ _ H1 (lookUp_raises_silently _ _ _ _ _ He)).
    cbn. now rewrite app_nil_r.
Qed.

(** X13. With arguments but no operation requested (only
    [--path_to_dict], or switches with empty values) the script still
    loads the file, and it does not look at what it loaded: whatever
    the JSON value is, the run prints the loader's messages alone and
    exits with status 0. *)
Theorem X13_no_operation_requested (sys_argv : list string) (args : Namespace)
    (D : pyobj) :
  length sys_argv <> 1 ->
  parse_args (tl sys_argv) = Parsed args ->
  truthy (prefix args) = false ->
  truthy (suffix args) = false ->
  list_all args = false ->
  result (readInDictionary (dictionaryPath args)) = Ok D ->
  main sys_argv = (Exited 0%Z, trace (readInDictionary (dictionaryPath args))).
Proof.
  intros Hlen Hparse Hp Hs Hall Hload.
  rewrite (main_loaded _ _ _ Hlen Hparse Hload), Hp, Hs, Hall. cbn.
  now rewrite app_nil_r.
Qed.

End Further.

(** ** The further properties on the sample files *)

(** X3, on the truncated file under [broken/], which is not empty. *)
Lemma X3_witness :
  In (Printed (tab ++ "***Info: The file at broken/rtl_dictionary.json"
               ++ " is empty... creating the dictionary from scratch"))
     (trace (readInDictionary Sample.fs Sample.json_load "broken/rtl_dictionary.json")).
Proof.
  apply (proj2 (proj2 (X3_file_empty_message Sample.fs Sample.json_load
                         "broken/rtl_dictionary.json" "{" eq_refl))).
  reflexivity.
Defined.

(** X4, on the file that holds an empty array. *)
Lemma X4_witness :
  Odd.main ["check_rtl_meaning.py"; "--list_all"; "--path_to_dict"; "array/"]
  = (Raised TypeError,
     [OpenFile "array/rtl_dictionary.json";
      Printed (tab ++ "***Info: Trying to read in array/rtl_dictionary.json")]).
Proof.
  apply (X4_top_level_not_object Sample.parse_args Odd.fs Odd.json_load Odd.py_str
           ["check_rtl_meaning.py"; "--list_all"; "--path_to_dict"; "array/"]
           (mkNamespace None None true (Some "array/")) Odd.array_value
           ltac:(discriminate) eq_refl eq_refl ltac:(discriminate)
           (or_intror (or_intror eq_refl))).
Defined.

(** X5, on the Prefixes [["pq_", "aref_"]]: [pq_] is in the array and
    the run ends in [TypeError], the valid suffix that was requested too
    is not looked up; [mmu_] is not in the array. *)
Lemma X5_witness :
  Odd.main ["check_rtl_meaning.py"; "--prefix"; "pq_"; "--suffix"; "_req";
            "--path_to_dict"; "listed/"]
  = (Raised TypeError,
     [OpenFile "listed/rtl_dictionary.json";
      Printed (tab ++ "***Info: Trying to read in listed/rtl_dictionary.json")])
  /\ lookUp Odd.py_str Odd.listed_value "Prefixes" "prefix" "mmu_"
     = (Ok tt,
        [Printed (tab ++ "***Info: The prefix mmu_ could not be found in rtl_dictionary.json")]).
Proof.
  split.
  - apply (proj2 (proj2 (X5_section_is_a_list
                           Sample.parse_args Odd.fs Odd.json_load Odd.py_str
                           Odd.listed_value "Prefixes" "prefix" "pq_"
                           [PyStr "pq_"; PyStr "aref_"] eq_refl))
                 ["check_rtl_meaning.py"; "--prefix"; "pq_"; "--suffix"; "_req";
                  "--path_to_dict"; "listed/"]
                 (mkNamespace (Some "pq_") (Some "_req") false (Some "listed/"))
                 ltac:(discriminate) eq_refl eq_refl eq_refl eq_refl
                 ltac:(discriminate) (or_introl eq_refl)).
  - apply (proj1 (proj2 (X5_section_is_a_list
                           Sample.parse_args Odd.fs Odd.json_load Odd.py_str
                           Odd.listed_value "Prefixes" "prefix" "mmu_"
                           [PyStr "pq_"; PyStr "aref_"] eq_refl))).
    intros [H|[H|[]]]; discriminate.
Defined.

(** X6, on the Prefixes ["pq_ aref_ mmu_"]: [ref] occurs in it, in the
    middle of a name, and [PQ_] does not. *)
Lemma X6_witness :
  lookUp Odd.py_str Odd.texted_value "Prefixes" "prefix" "ref" = (Raised TypeError, [])
  /\ lookUp Odd.py_str Odd.texted_value "Prefixes" "prefix" "PQ_"
     = (Ok tt,
        [Printed (tab ++ "***Info: The prefix PQ_ could not be found in rtl_dictionary.json")]).
Proof.
  split.
  - apply (proj1 (X6_section_is_a_string Odd.py_str Odd.texted_value
                    "Prefixes" "prefix" "ref" "pq_ aref_ mmu_" eq_refl)).
    exists "pq_ a", "_ mmu_". reflexivity.
  - apply (proj2 (X6_section_is_a_string Odd.py_str Odd.texted_value
                    "Prefixes" "prefix" "PQ_" "pq_ aref_ mmu_" eq_refl)).
    intros H. apply occurs_in_spec in H. vm_compute in H. discriminate.
Defined.

(** X7, on the Prefixes [5]. *)
Lemma X7_witness :
  Odd.main ["check_rtl_meaning.py"; "--prefix"; "pq_"; "--path_to_dict"; "scalar/"]
  = (Raised TypeError,
     [OpenFile "scalar/rtl_dictionary.json";
      Printed (tab ++ "***Info: Trying to read in scalar/rtl_dictionary.json")]).
Proof.
  apply (proj2 (X7_section_is_a_scalar
                  Sample.parse_args Odd.fs Odd.json_load Odd.py_str
                  Odd.scalar_value (PyInt 5) "Prefixes" "prefix" eq_refl eq_refl)
               ["check_rtl_meaning.py"; "--prefix"; "pq_"; "--path_to_dict"; "scalar/"]
               (mkNamespace (Some "pq_") None false (Some "scalar/"))
               ltac:(discriminate) eq_refl eq_refl eq_refl eq_refl).
Defined.

(** X8, on the file whose Prefixes are a mapping and whose Suffixes are
    an array: the look-up prints its line, the listing prints nothing. *)
Lemma X8_witness :
  Odd.main ["check_rtl_meaning.py"; "--prefix"; "pq_"; "--list_all";
            "--path_to_dict"; "half/"]
  = (Raised AttributeError,
     [OpenFile "half/rtl_dictionary.json";
      Printed (tab ++ "***Info: Trying to read in half/rtl_dictionary.json");
      Printed "pq_: Placement Queue"]).
Proof.
  refine (X8_listing_needs_two_mappings
            Sample.parse_args Odd.fs Odd.json_load Odd.py_str
            ["check_rtl_meaning.py"; "--prefix"; "pq_"; "--list_all";
             "--path_to_dict"; "half/"]
            (mkNamespace (Some "pq_") None true (Some "half/")) Odd.half_value
            (PyDict [("pq_", PyStr "Placement Queue")]) (PyList [PyStr "_req"])
            [Printed "pq_: Placement Queue"] []
            _ _ _ _ _ _ _ _ _);
    try reflexivity; [discriminate | right; discriminate].
Defined.


(** X10, on the second prefix of the built-in dictionary, which the
    loader returns for the truncated file. *)
Lemma X10_witness :
  exists before after,
    joinLines (map (entryLine Sample.py_str)
                 [("aref_", PyStr "Indicates that the signal is to do with the auto-refresh logic.");
                  ("mmu_", PyStr "Indicates that the signal is coming from the memory-management unit.")])
    = before
      ++ ("mmu_: Indicates that the signal is coming from the memory-management unit.")
      ++ nl ++ after
    /\ In (Printed "mmu_: Indicates that the signal is coming from the memory-management unit.")
          (trace (Sample.main ["check_rtl_meaning.py"; "--prefix"; "mmu_"; "--list_all";
                               "--path_to_dict"; "broken/"])).
Proof.
  destruct (X10_listing_holds_looked_up_line
              Sample.parse_args Sample.fs Sample.json_load Sample.py_str
              ["check_rtl_meaning.py"; "--prefix"; "mmu_"; "--list_all";
               "--path_to_dict"; "broken/"]
              (mkNamespace (Some "mmu_") None true (Some "broken/")) default_dictionary
              [("aref_", PyStr "Indicates that the signal is to do with the auto-refresh logic.");
               ("mmu_", PyStr "Indicates that the signal is coming from the memory-management unit.")]
              [("_req", PyStr "Indicates a request line.");
               ("_ctrl", PyStr "Indicates a control signal or a signal from a control block.")]
              "mmu_"
              (PyStr "Indicates that the signal is coming from the memory-management unit.")
              ltac:(discriminate) eq_refl eq_refl (conj eq_refl eq_refl)
              eq_refl ltac:(discriminate) eq_refl eq_refl)
    as [before [after [Hjoin Hrun]]].
  exists before, after. split; [exact Hjoin|].
  unfold Sample.main. rewrite Hrun. cbn [trace snd].
  apply in_or_app. right. now left.
Defined.

(** X11, with a suffix looked up in the file whose Prefixes are an
    array, and a prefix in the file that has no Suffixes. *)
Lemma X11_witness :
  Odd.main ["check_rtl_meaning.py"; "--suffix"; "_req"; "--path_to_dict"; "listed/"]
  = (Exited 0%Z,
     [OpenFile "listed/rtl_dictionary.json";
      Printed (tab ++ "***Info: Trying to read in listed/rtl_dictionary.json");
      Printed "_req: Request line"])
  /\ Sample.main ["check_rtl_meaning.py"; "--prefix"; "pq_"; "--path_to_dict"; "prefixes_only/"]
     = (Exited 0%Z,
        [OpenFile "prefixes_only/rtl_dictionary.json";
         Printed (tab ++ "***Info: Trying to read in prefixes_only/rtl_dictionary.json");
         Printed "pq_: Placement Queue"]).
Proof.
  split.
  - apply (proj2 (X11_sections_checked_on_use
                    Sample.parse_args Odd.fs Odd.json_load Odd.py_str
                    ["check_rtl_meaning.py"; "--suffix"; "_req"; "--path_to_dict"; "listed/"]
                    (mkNamespace None (Some "_req") false (Some "listed/")) Odd.listed_value
                    [("_req", PyStr "Request line")] "_req"
                    ltac:(discriminate) eq_refl eq_refl eq_refl ltac:(discriminate))
                 eq_refl eq_refl eq_refl).
  - apply (proj1 (X11_sections_checked_on_use
                    Sample.parse_args Sample.fs Sample.json_load Sample.py_str
                    ["check_rtl_meaning.py"; "--prefix"; "pq_";
                     "--path_to_dict"; "prefixes_only/"]
                    (mkNamespace (Some "pq_") None false (Some "prefixes_only/"))
                    Sample.prefixes_only_dict
                    [("pq_", PyStr "Placement Queue")] "pq_"
                    ltac:(discriminate) eq_refl eq_refl eq_refl ltac:(discriminate))
                 eq_refl eq_refl eq_refl).
Defined.

(** X12, with the three switches on the file whose Prefixes are an
    array, and with a suffix looked up in the file whose Suffixes are
    [null] after a prefix that is found. *)
Lemma X12_witness :
  Odd.main ["check_rtl_meaning.py"; "--prefix"; "pq_"; "--suffix"; "_req"; "--list_all";
            "--path_to_dict"; "listed/"]
  = (Raised TypeError,
     [OpenFile "listed/rtl_dictionary.json";
      Printed (tab ++ "***Info: Trying to read in listed/rtl_dictionary.json")])
  /\ Odd.main ["check_rtl_meaning.py"; "--prefix"; "pq_"; "--suffix"; "_req"; "--list_all";
               "--path_to_dict"; "half/"]
     = (Raised TypeError,
        [OpenFile "half/rtl_dictionary.json";
         Printed (tab ++ "***Info: Trying to read in half/rtl_dictionary.json");
         Printed "pq_: Placement Queue"]).
Proof.
  split.
  - apply (proj1 (X12_failed_lookup_ends_run
                    Sample.parse_args Odd.fs Odd.json_load Odd.py_str
                    ["check_rtl_meaning.py"; "--prefix"; "pq_"; "--suffix"; "_req";
                     "--list_all"; "--path_to_dict"; "listed/"]
                    (mkNamespace (Some "pq_") (Some "_req") true (Some "listed/"))
                    Odd.listed_value TypeError
                    ltac:(discriminate) eq_refl eq_refl)
                 eq_refl eq_refl).
  - apply (proj2 (X12_failed_lookup_ends_run
                    Sample.parse_args Odd.fs Odd.json_load Odd.py_str
                    ["check_rtl_meaning.py"; "--prefix"; "pq_"; "--suffix"; "_req";
                     "--list_all"; "--path_to_dict"; "half/"]
                    (mkNamespace (Some "pq_") (Some "_req") true (Some "half/"))
                    Odd.half_value TypeError
                    ltac:(discriminate) eq_refl eq_refl)
                 [Printed "pq_: Placement Queue"] eq_refl eq_refl eq_refl).
Defined.

(** X13, with [--path_to_dict] alone on the file that holds an array. *)
Lemma X13_witness :
  Odd.main ["check_rtl_meaning.py"; "--path_to_dict"; "array/"]
  = (Exited 0%Z,
     [OpenFile "array/rtl_dictionary.json";
      Printed (tab ++ "***Info: Trying to read in array/rtl_dictionary.json")]).
Proof.
  apply (X13_no_operation_requested
           Sample.parse_args Odd.fs Odd.json_load Odd.py_str
           ["check_rtl_meaning.py"; "--path_to_dict"; "array/"]
           (mkNamespace None None false (Some "array/")) Odd.array_value
           ltac:(discriminate) eq_refl eq_refl eq_refl eq_refl eq_refl).
Defined.

